(** * U-Boot virtio-gpu driver and video pixel formats: a shallow embedding

    The development follows [drivers/virtio/virtio_gpu.c] and
    [include/video_format.h].  Fixed-width C integers are values of [Z]
    with the wrap-around written out, the device is an oracle answering
    the requests handed to the command queue, and the driver functions are
    state transformers over a [world] holding the driver's private data,
    the video-uclass data, the heap of live [malloc] blocks and the trace
    of requests placed on the queue. *)

From Stdlib Require Import ZArith Lia List Bool Sorted.
From stdpp Require Import base list gmap.

Local Open Scope Z_scope.

(** ** Fixed-width integers *)

Module Int.

Definition u8 (x : Z) : Z := x mod 2 ^ 8.
Definition u16 (x : Z) : Z := x mod 2 ^ 16.
Definition u32 (x : Z) : Z := x mod 2 ^ 32.
Definition u64 (x : Z) : Z := x mod 2 ^ 64.

(** Conversion of a 32-bit unsigned value to C [int]. *)
Definition to_int (x : Z) : Z :=
  let y := u32 x in if y <? 2 ^ 31 then y else y - 2 ^ 32.

(** Little-endian byte strings of a fixed length, least significant first. *)
Fixpoint le_bytes (n : nat) (x : Z) : list Z :=
  match n with
  | O => []
  | S k => x mod 256 :: le_bytes k (x / 256)
  end.

Fixpoint of_le_bytes (l : list Z) : Z :=
  match l with
  | [] => 0
  | b :: t => b + 256 * of_le_bytes t
  end.

(** Byte swap of an [n]-byte integer. *)
Definition bswap (n : nat) (x : Z) : Z := of_le_bytes (rev (le_bytes n x)).

(** Modelled from the spec: [cpu_to_le32], [cpu_to_be32] and friends (the
    byte-order headers are not among the sources) are the identity when the
    host has the requested byte order and a byte swap otherwise.  [host_le]
    is the compile-time [__LITTLE_ENDIAN]. *)
Definition cpu_to_le32 (host_le : bool) (x : Z) : Z :=
  if host_le then u32 x else bswap 4 x.
Definition cpu_to_be32 (host_le : bool) (x : Z) : Z :=
  if host_le then bswap 4 x else u32 x.
Definition cpu_to_le64 (host_le : bool) (x : Z) : Z :=
  if host_le then u64 x else bswap 8 x.
Definition cpu_to_be64 (host_le : bool) (x : Z) : Z :=
  if host_le then bswap 8 x else u64 x.

Definition cpu_to_le16 (host_le : bool) (x : Z) : Z :=
  if host_le then u16 x else bswap 2 x.
Definition cpu_to_be16 (host_le : bool) (x : Z) : Z :=
  if host_le then bswap 2 x else u16 x.

(** The bytes of an [n]-byte integer as the host keeps them in memory,
    lowest address first. *)
Definition stored (host_le : bool) (n : nat) (x : Z) : list Z :=
  if host_le then le_bytes n x else rev (le_bytes n x).

End Int.

(** ** include/video_format.h *)

Module VideoFormat.
Import Int.

Inductive video_log2_bpp := VIDEO_BPP8 | VIDEO_BPP16 | VIDEO_BPP32.

Definition log2_bpp_val (b : video_log2_bpp) : Z :=
  match b with
  | VIDEO_BPP8 => 3
  | VIDEO_BPP16 => 4
  | VIDEO_BPP32 => 5
  end.

Definition VNBYTES (bpix : video_log2_bpp) : Z :=
  Z.shiftl 1 (log2_bpp_val bpix) / 8.

Definition VNBITS (bpix : video_log2_bpp) : Z :=
  Z.shiftl 1 (log2_bpp_val bpix).

(** [struct video_rgb]: three [uint8_t] components. *)
Record video_rgb := { r : Byte.byte; g : Byte.byte; b : Byte.byte }.

Definition byte_val (x : Byte.byte) : Z := Z.of_N (Byte.to_N x).

Inductive video_format :=
| VIDEO_DEFAULT
| VIDEO_RGB332
| VIDEO_RGB565
| VIDEO_RGB565_BE
| VIDEO_XRGB8888
| VIDEO_BGRX8888
| VIDEO_XBGR8888
| VIDEO_RGBA8888
| VIDEO_XRGB2101010
| VIDEO_XRGB2101010_BE
| VIDEO_FMT_END.

Definition VIDEO_XRGB8888_BE : video_format := VIDEO_BGRX8888.

(** The layout [switch] of [video_rgb_to_pixel32]: the value of
    [unsigned int val] before the byte-order step. *)
Definition pixel32_layout (host_le : bool) (format : video_format)
    (rgb : video_rgb) : Z :=
  let r := byte_val (r rgb) in
  let g := byte_val (g rgb) in
  let b := byte_val (b rgb) in
  let xrgb := u32 (Z.lor (Z.lor (Z.shiftl r 16) (Z.shiftl g 8)) b) in
  let bgrx := u32 (Z.lor (Z.lor (Z.shiftl b 24) (Z.shiftl g 8)) (Z.shiftl r 8)) in
  match format with
  | VIDEO_DEFAULT => if host_le then xrgb else bgrx
  | VIDEO_XRGB8888 => xrgb
  | VIDEO_BGRX8888 => bgrx
  | VIDEO_XBGR8888 =>
      u32 (Z.lor (Z.lor (Z.shiftl b 16) (Z.shiftl g 8)) b)
  | VIDEO_RGBA8888 =>
      u32 (Z.lor (Z.lor (Z.lor (Z.shiftl r 24) (Z.shiftl g 16)) (Z.shiftl b 8))
             255)
  | VIDEO_XRGB2101010 | VIDEO_XRGB2101010_BE =>
      u32 (Z.lor (Z.lor (Z.shiftl r 22) (Z.shiftl g 12)) (Z.shiftl b 2))
  | _ => 0
  end.

Definition video_rgb_to_pixel32 (host_le : bool) (format : video_format)
    (rgb : video_rgb) : Z :=
  let val := pixel32_layout host_le format rgb in
  match format with
  | VIDEO_XRGB2101010_BE => cpu_to_be32 host_le val
  | _ => cpu_to_le32 host_le val
  end.

(** [video_rgb_to_pixel8]: only the 3:3:2 layout exists; every other
    format falls out of the [switch] and gives 0. *)
Definition video_rgb_to_pixel8 (format : video_format) (rgb : video_rgb)
    : Z :=
  let r := byte_val (r rgb) in
  let g := byte_val (g rgb) in
  let b := byte_val (b rgb) in
  match format with
  | VIDEO_DEFAULT | VIDEO_RGB332 =>
      u8 (Z.lor (Z.lor (Z.shiftl (Z.shiftr r 5) 5) (Z.shiftl (Z.shiftr g 5) 2))
            (Z.shiftr b 6))
  | _ => 0
  end.

(** The layout [switch] of [video_rgb_to_pixel16]. *)
Definition pixel16_layout (format : video_format) (rgb : video_rgb) : Z :=
  let r := byte_val (r rgb) in
  let g := byte_val (g rgb) in
  let b := byte_val (b rgb) in
  match format with
  | VIDEO_DEFAULT | VIDEO_RGB565 | VIDEO_RGB565_BE =>
      u32 (Z.lor (Z.lor (Z.shiftl (Z.shiftr r 3) 11)
                    (Z.shiftl (Z.shiftr g 2) 5))
             (Z.shiftl (Z.shiftr b 3) 0))
  | _ => 0
  end.

Definition video_rgb_to_pixel16 (host_le : bool) (format : video_format)
    (rgb : video_rgb) : Z :=
  let val := pixel16_layout format rgb in
  match format with
  | VIDEO_RGB565_BE => cpu_to_be16 host_le val
  | _ => cpu_to_le16 host_le val
  end.

End VideoFormat.

(** ** drivers/virtio/virtio_gpu.c *)

Module VirtioGpu.
Import Int.

(** *** Wire protocol *)

(** Modelled from the spec: [virtio_gpu.h] is not among the sources; the
    command and response codes, the fence flag, the number of scanouts and
    the structure sizes are those of the virtio-gpu wire protocol.  The
    proofs below use of them only that the command codes are distinct
    32-bit values and that the scanouts fit a 32-bit mask. *)
Inductive virtio_gpu_ctrl_type :=
| VIRTIO_GPU_CMD_GET_DISPLAY_INFO
| VIRTIO_GPU_CMD_RESOURCE_CREATE_2D
| VIRTIO_GPU_CMD_SET_SCANOUT
| VIRTIO_GPU_CMD_RESOURCE_FLUSH
| VIRTIO_GPU_CMD_TRANSFER_TO_HOST_2D
| VIRTIO_GPU_CMD_RESOURCE_ATTACH_BACKING.

Definition ctrl_code (t : virtio_gpu_ctrl_type) : Z :=
  match t with
  | VIRTIO_GPU_CMD_GET_DISPLAY_INFO => 0x0100
  | VIRTIO_GPU_CMD_RESOURCE_CREATE_2D => 0x0101
  | VIRTIO_GPU_CMD_SET_SCANOUT => 0x0103
  | VIRTIO_GPU_CMD_RESOURCE_FLUSH => 0x0104
  | VIRTIO_GPU_CMD_TRANSFER_TO_HOST_2D => 0x0105
  | VIRTIO_GPU_CMD_RESOURCE_ATTACH_BACKING => 0x0106
  end.

Definition VIRTIO_GPU_RESP_OK_NODATA : Z := 0x1100.
Definition VIRTIO_GPU_RESP_OK_DISPLAY_INFO : Z := 0x1101.
Definition VIRTIO_GPU_FLAG_FENCE : Z := 1.
Definition VIRTIO_GPU_MAX_SCANOUTS : nat := 16.
Definition VIRTIO_GPU_FORMAT_B8G8R8X8_UNORM : Z := 2.
Definition EINVAL : Z := 22.

Definition sizeof_ctrl_hdr : Z := 24.
Definition sizeof_resp_display_info : Z := 408.
Definition sizeof_resource_create_2d : Z := 40.
Definition sizeof_resource_attach_backing : Z := 32.
Definition sizeof_mem_entry : Z := 16.
Definition sizeof_set_scanout : Z := 48.
Definition sizeof_transfer_to_host_2d : Z := 56.
Definition sizeof_resource_flush : Z := 48.

Record virtio_gpu_ctrl_hdr := {
  hdr_type : Z;
  hdr_flags : Z;
  hdr_fence_id : Z;
  hdr_ctx_id : Z;
  hdr_ring_idx : Z
}.

Record virtio_gpu_rect := { r_x : Z; r_y : Z; r_width : Z; r_height : Z }.

Record virtio_gpu_display_one := {
  d_r : virtio_gpu_rect;
  d_enabled : Z;
  d_flags : Z
}.

Record virtio_gpu_mem_entry := { m_addr : Z; m_length : Z; m_padding : Z }.

(** What follows the header in a request buffer. *)
Inductive req_body :=
| BodyNone
| BodyResourceCreate2d (resource_id format width height : Z)
| BodyResourceAttachBacking (resource_id nr_entries : Z)
    (entries : list virtio_gpu_mem_entry)
| BodySetScanout (r : virtio_gpu_rect) (scanout_id resource_id : Z)
| BodyTransferToHost2d (r : virtio_gpu_rect) (offset resource_id padding : Z)
| BodyResourceFlush (r : virtio_gpu_rect) (resource_id padding : Z).

(** One descriptor chain as handed to [virtqueue_add]: the request buffer
    with its length, and the length of the response buffer. *)
Record request := {
  rq_hdr : virtio_gpu_ctrl_hdr;
  rq_body : req_body;
  rq_in_size : Z;
  rq_out_size : Z
}.

(** Contents of a response buffer: the header, and for
    [struct virtio_gpu_resp_display_info] the [pmodes] array. *)
Record response := {
  resp_hdr : virtio_gpu_ctrl_hdr;
  resp_pmodes : list virtio_gpu_display_one
}.

(** *** The transport and the device *)

(** Modelled from the spec: the virtqueue primitives are not among the
    sources.  [virtqueue_add] returns zero or a negative error code; after
    [virtqueue_kick] the request either completes, and [virtqueue_get_buf]
    eventually yields the used length with the response buffer filled in,
    or never does, and the busy-wait spins forever. *)
Inductive reply :=
| AddFails (errno : positive)
| Completes (len : Z) (out : response)
| NeverCompletes.

(** The environment of one device instance: the byte order of the host
    and whether the device is a modern one; what [virtio_find_vqs] returns
    and the queue it stores; the answer of the transport to a request, as
    a function of everything handed to [virtqueue_add] so far, oldest
    first, the request itself last; the address translation; and the
    indeterminate contents of a buffer nobody has written yet. *)
Record udevice := {
  host_le : bool;
  version_1 : bool;
  find_vqs_ret : Z;
  find_vqs_vq : Z;
  dev_reply : list request -> reply;
  virt_to_phys : Z -> Z;
  uninit : response
}.

(** Modelled from the spec: the conversions to and from device byte order
    ([virtio.h] is not among the sources).  A device is little-endian when
    it negotiated [VIRTIO_F_VERSION_1]; a legacy device has the byte order
    of the host. *)
Definition virtio_is_little_endian (dev : udevice) : bool :=
  version_1 dev || host_le dev.

Definition cpu_to_virtio32 (dev : udevice) (val : Z) : Z :=
  if virtio_is_little_endian dev then cpu_to_le32 (host_le dev) val
  else cpu_to_be32 (host_le dev) val.

Definition virtio32_to_cpu (dev : udevice) (val : Z) : Z :=
  cpu_to_virtio32 dev val.

Definition cpu_to_virtio64 (dev : udevice) (val : Z) : Z :=
  if virtio_is_little_endian dev then cpu_to_le64 (host_le dev) val
  else cpu_to_be64 (host_le dev) val.

Definition virtio64_to_cpu (dev : udevice) (val : Z) : Z :=
  cpu_to_virtio64 dev val.

(** Kconfig values. *)
Record config := { VIRTIO_GPU_SIZE_X : Z; VIRTIO_GPU_SIZE_Y : Z }.

(** *** Driver state *)

Record virtio_gpu_priv := {
  vq : Z;
  scanout_res_id : Z;
  fence_id : Z;
  in_sync : bool
}.

(** The fields of [struct video_priv] and [struct video_uc_plat] the
    driver touches.

    Modelled from the spec: the two structures are declared in the
    display subsystem's header, which is not among the sources; there
    [xsize] and [ysize] are unsigned 16-bit fields, so a store to them
    keeps the low 16 bits of the value. *)
Record video_priv := {
  xsize : Z;
  ysize : Z;
  bpix : VideoFormat.video_log2_bpp
}.

Record video_uc_plat := { base : Z; size : Z }.

(** Everything the driver functions read or write: the private data, the
    uclass data, the platform data, the blocks handed out by [malloc] and
    not yet freed, and the requests handed to the queue so far, oldest
    first. *)
Record world := {
  w_priv : virtio_gpu_priv;
  w_uc_priv : video_priv;
  w_plat : video_uc_plat;
  w_live : gset nat;
  w_trace : list request
}.

Definition set_priv (p : virtio_gpu_priv) (w : world) : world :=
  {| w_priv := p; w_uc_priv := w_uc_priv w; w_plat := w_plat w;
     w_live := w_live w; w_trace := w_trace w |}.

Definition set_uc_priv (u : video_priv) (w : world) : world :=
  {| w_priv := w_priv w; w_uc_priv := u; w_plat := w_plat w;
     w_live := w_live w; w_trace := w_trace w |}.

Definition set_plat (p : video_uc_plat) (w : world) : world :=
  {| w_priv := w_priv w; w_uc_priv := w_uc_priv w; w_plat := p;
     w_live := w_live w; w_trace := w_trace w |}.

Definition set_live (s : gset nat) (w : world) : world :=
  {| w_priv := w_priv w; w_uc_priv := w_uc_priv w; w_plat := w_plat w;
     w_live := s; w_trace := w_trace w |}.

Definition push_request (rq : request) (w : world) : world :=
  {| w_priv := w_priv w; w_uc_priv := w_uc_priv w; w_plat := w_plat w;
     w_live := w_live w; w_trace := w_trace w ++ [rq] |}.

Definition set_vq (v : Z) (p : virtio_gpu_priv) : virtio_gpu_priv :=
  {| vq := v; scanout_res_id := scanout_res_id p; fence_id := fence_id p;
     in_sync := in_sync p |}.

Definition set_scanout_res_id (v : Z) (p : virtio_gpu_priv) : virtio_gpu_priv :=
  {| vq := vq p; scanout_res_id := v; fence_id := fence_id p;
     in_sync := in_sync p |}.

Definition set_fence_id (v : Z) (p : virtio_gpu_priv) : virtio_gpu_priv :=
  {| vq := vq p; scanout_res_id := scanout_res_id p; fence_id := v;
     in_sync := in_sync p |}.

Definition set_in_sync (v : bool) (p : virtio_gpu_priv) : virtio_gpu_priv :=
  {| vq := vq p; scanout_res_id := scanout_res_id p; fence_id := fence_id p;
     in_sync := v |}.

(** The heap: [malloc] hands out a block that is not live and makes it
    live, [free] ends its life.  [malloc] is taken to succeed: the driver
    never tests its result. *)
Definition malloc (w : world) : nat * world :=
  let p := fresh (w_live w) in (p, set_live ({[p]} ∪ w_live w) w).

Definition free (p : nat) (w : world) : world :=
  set_live (w_live w ∖ {[p]}) w.

(** [if (ptr) free(ptr);] on a pointer that may be [NULL]. *)
Definition free_if (ptr : option nat) (w : world) : world :=
  match ptr with
  | Some p => free p w
  | None => w
  end.

(** Outcome of a driver function: it returns a value in a new world, or
    the device never completes a request and the caller spins in
    [virtio_gpu_do_req], or a bounded loop of the model ran out of fuel. *)
Inductive result (A : Type) :=
| Ret (a : A) (w : world)
| Hang (w : world)
| OutOfFuel (w : world).
Arguments Ret {A} a w.
Arguments Hang {A} w.
Arguments OutOfFuel {A} w.

Definition bind {A B : Type} (m : result A) (k : A -> world -> result B)
    : result B :=
  match m with
  | Ret a w => k a w
  | Hang w => Hang w
  | OutOfFuel w => OutOfFuel w
  end.

Notation "'call' ( a , w ) <- m ; k" := (bind m (fun a w => k))
  (at level 10, a pattern, w name, m at level 100, k at level 200).

(** *** virtio_gpu_do_req *)

(** [out] is what the response buffer holds before the call; the function
    yields the [int] it returns together with what the buffer holds
    afterwards.  The request is recorded in the trace when it is handed to
    [virtqueue_add], whether or not that succeeds.  Logging is not part of
    the world: the test [out_size != len] guards a [log_debug] only. *)
Definition virtio_gpu_do_req (dev : udevice) (type : virtio_gpu_ctrl_type)
    (body : req_body) (in_size : Z) (out : response) (out_size : Z)
    (flush : bool) (w : world) : result (Z * response) :=
  let priv := w_priv w in
  let '(flags, fence, priv) :=
    if flush then
      (cpu_to_virtio32 dev VIRTIO_GPU_FLAG_FENCE,
       cpu_to_virtio64 dev (fence_id priv),
       set_fence_id (u64 (fence_id priv + 1)) priv)
    else (0, 0, priv) in
  let ctrl_hdr_in :=
    {| hdr_type := cpu_to_virtio32 dev (ctrl_code type);
       hdr_flags := flags;
       hdr_fence_id := fence;
       hdr_ctx_id := 0;
       hdr_ring_idx := 0 |} in
  let w := set_priv priv w in
  let w := push_request {| rq_hdr := ctrl_hdr_in; rq_body := body;
                           rq_in_size := in_size;
                           rq_out_size := out_size |} w in
  match dev_reply dev (w_trace w) with
  | AddFails errno => Ret (- Z.pos errno, out) w
  | NeverCompletes => Hang w
  | Completes len ctrl_hdr_out =>
      Ret (to_int (virtio32_to_cpu dev (hdr_type (resp_hdr ctrl_hdr_out))),
           ctrl_hdr_out) w
  end.

(** *** virtio_gpu_probe *)

(** The [for] loop over [pmodes]: [scanout_mask |= 1 << i] for every
    enabled descriptor.  An index past the end of the array reads
    nothing. *)
Definition scanout_enabled (pmodes : list virtio_gpu_display_one)
    (i : nat) : bool :=
  match pmodes !! i with
  | Some disp => negb (d_enabled disp =? 0)
  | None => false
  end.

Definition build_scanout_mask (pmodes : list virtio_gpu_display_one) : Z :=
  fold_left
    (fun scanout_mask i =>
       if scanout_enabled pmodes i
       then u32 (Z.lor scanout_mask (Z.shiftl 1 (Z.of_nat i)))
       else scanout_mask)
    (seq 0 VIRTIO_GPU_MAX_SCANOUTS) 0.

(** Modelled from the spec: [ffs] (lowest-set-bit extraction, not among
    the sources) is one plus the index of the least significant set bit of
    a 32-bit word, and zero when no bit is set. *)
Fixpoint ffs_from (n : nat) (i : Z) (x : Z) : Z :=
  match n with
  | O => 0
  | S k => if Z.testbit x i then i + 1 else ffs_from k (i + 1) x
  end.

Definition ffs (x : Z) : Z := ffs_from 32 0 x.

(** The cleanup labels at the end of [virtio_gpu_probe]; control falls
    through from each label to the next. *)
Definition out_free_disp (disp_info_out : option nat) (ret : Z) (w : world)
    : result Z :=
  Ret ret (free_if disp_info_out w).

Definition out_free_res_create_2d (res_create_2d_in disp_info_out : option nat)
    (ret : Z) (w : world) : result Z :=
  out_free_disp disp_info_out ret (free_if res_create_2d_in w).

Definition out_free_res_buf (res_buf_in res_create_2d_in disp_info_out
    : option nat) (ret : Z) (w : world) : result Z :=
  out_free_res_create_2d res_create_2d_in disp_info_out ret
    (free_if res_buf_in w).

Definition out_free_set_scanout (set_scanout_in res_buf_in res_create_2d_in
    disp_info_out : option nat) (ret : Z) (w : world) : result Z :=
  out_free_res_buf res_buf_in res_create_2d_in disp_info_out ret
    (free_if set_scanout_in w).

Definition full_screen (dev : udevice) (uc_priv : video_priv)
    : virtio_gpu_rect :=
  {| r_x := 0; r_y := 0;
     r_width := cpu_to_virtio32 dev (xsize uc_priv);
     r_height := cpu_to_virtio32 dev (ysize uc_priv) |}.

(** The [while (scanout_mask)] loop.  It yields [None] when the mask has
    become empty and [Some ret] when an exchange failed and control jumps
    to [out_free_set_scanout]. *)
Fixpoint set_scanout_loop (fuel : nat) (dev : udevice)
    (ctrl_hdr_out : response) (scanout_mask : Z) (w : world)
    : result (option Z) :=
  match fuel with
  | O => OutOfFuel w
  | S fuel =>
      if scanout_mask =? 0 then Ret None w else
      let active_scanout := u32 (ffs scanout_mask - 1) in
      let set_scanout_in :=
        BodySetScanout (full_screen dev (w_uc_priv w))
          (cpu_to_virtio32 dev active_scanout)
          (cpu_to_virtio32 dev (scanout_res_id (w_priv w))) in
      call ((ret, ctrl_hdr_out), w) <-
        virtio_gpu_do_req dev VIRTIO_GPU_CMD_SET_SCANOUT set_scanout_in
          sizeof_set_scanout ctrl_hdr_out sizeof_ctrl_hdr false w;
      if negb (ret =? VIRTIO_GPU_RESP_OK_NODATA) then Ret (Some (- EINVAL)) w
      else
        set_scanout_loop fuel dev ctrl_hdr_out
          (Z.land scanout_mask (u32 (Z.lnot (Z.shiftl 1 active_scanout)))) w
  end.

(** A 32-bit mask loses one bit per round, so 33 rounds reach the test
    that ends the loop. *)
Definition scanout_fuel : nat := 33.

Definition virtio_gpu_probe (cfg : config) (dev : udevice) (w : world)
    : result Z :=
  if base (w_plat w) =? 0 then Ret (- EINVAL) w else
  let ret := find_vqs_ret dev in
  let w := set_priv (set_vq (find_vqs_vq dev) (w_priv w)) w in
  if ret <? 0 then Ret ret w else
  let '(disp_info_out, w) := malloc w in
  call ((ret, disp_info), w) <-
    virtio_gpu_do_req dev VIRTIO_GPU_CMD_GET_DISPLAY_INFO BodyNone
      sizeof_ctrl_hdr (uninit dev) sizeof_resp_display_info false w;
  if negb (ret =? VIRTIO_GPU_RESP_OK_DISPLAY_INFO)
  then out_free_disp (Some disp_info_out) (- EINVAL) w else
  let scanout_mask := build_scanout_mask (resp_pmodes disp_info) in
  if scanout_mask =? 0
  then out_free_disp (Some disp_info_out) (- EINVAL) w else
  let w := free disp_info_out w in
  let disp_info_out : option nat := None in
  let w := set_uc_priv {| xsize := u16 (VIRTIO_GPU_SIZE_X cfg);
                          ysize := u16 (VIRTIO_GPU_SIZE_Y cfg);
                          bpix := VideoFormat.VIDEO_BPP32 |} w in
  let w := set_priv (set_scanout_res_id 1 (w_priv w)) w in
  let '(res_create_2d_in, w) := malloc w in
  let create_2d :=
    BodyResourceCreate2d
      (cpu_to_virtio32 dev (scanout_res_id (w_priv w)))
      (cpu_to_virtio32 dev VIRTIO_GPU_FORMAT_B8G8R8X8_UNORM)
      (cpu_to_virtio32 dev (xsize (w_uc_priv w)))
      (cpu_to_virtio32 dev (ysize (w_uc_priv w))) in
  call ((ret, ctrl_hdr_out), w) <-
    virtio_gpu_do_req dev VIRTIO_GPU_CMD_RESOURCE_CREATE_2D create_2d
      sizeof_resource_create_2d (uninit dev) sizeof_ctrl_hdr false w;
  if negb (ret =? VIRTIO_GPU_RESP_OK_NODATA)
  then out_free_res_create_2d (Some res_create_2d_in) disp_info_out
         (- EINVAL) w else
  let w := free res_create_2d_in w in
  let res_create_2d_in : option nat := None in
  let '(res_buf_in, w) := malloc w in
  let attach_backing :=
    BodyResourceAttachBacking
      (cpu_to_virtio32 dev (scanout_res_id (w_priv w)))
      (cpu_to_virtio32 dev 1)
      [ {| m_addr := cpu_to_virtio64 dev (virt_to_phys dev (base (w_plat w)));
           m_length := cpu_to_virtio32 dev (size (w_plat w));
           m_padding := 0 |} ] in
  call ((ret, ctrl_hdr_out), w) <-
    virtio_gpu_do_req dev VIRTIO_GPU_CMD_RESOURCE_ATTACH_BACKING
      attach_backing (sizeof_resource_attach_backing + sizeof_mem_entry)
      ctrl_hdr_out sizeof_ctrl_hdr false w;
  if negb (ret =? VIRTIO_GPU_RESP_OK_NODATA)
  then out_free_res_buf (Some res_buf_in) res_create_2d_in disp_info_out
         (- EINVAL) w else
  let w := free res_buf_in w in
  let res_buf_in : option nat := None in
  let '(set_scanout_in, w) := malloc w in
  call (jump, w) <-
    set_scanout_loop scanout_fuel dev ctrl_hdr_out scanout_mask w;
  match jump with
  | Some ret =>
      out_free_set_scanout (Some set_scanout_in) res_buf_in res_create_2d_in
        disp_info_out ret w
  | None => Ret 0 (free set_scanout_in w)
  end.

(** *** virtio_gpu_bind *)

(** [virtio_driver_features_init] writes to the parent transport only. *)
Definition virtio_gpu_bind (cfg : config) (w : world) : result Z :=
  Ret 0
    (set_plat
       {| base := 0;
          size := u32 (VIRTIO_GPU_SIZE_X cfg * VIRTIO_GPU_SIZE_X cfg *
                       VideoFormat.VNBYTES VideoFormat.VIDEO_BPP32) |} w).

(** *** virtio_gpu_video_sync *)

Definition virtio_gpu_video_sync (dev : udevice) (w : world) : result Z :=
  if in_sync (w_priv w) then Ret 0 w else
  let w := set_priv (set_in_sync true (w_priv w)) w in
  let to_host_2d_in :=
    BodyTransferToHost2d (full_screen dev (w_uc_priv w)) 0
      (cpu_to_virtio32 dev (scanout_res_id (w_priv w))) 0 in
  call ((ret, ctrl_hdr_out), w) <-
    virtio_gpu_do_req dev VIRTIO_GPU_CMD_TRANSFER_TO_HOST_2D to_host_2d_in
      sizeof_transfer_to_host_2d (uninit dev) sizeof_ctrl_hdr true w;
  if negb (ret =? VIRTIO_GPU_RESP_OK_NODATA)
  then Ret (- EINVAL) (set_priv (set_in_sync false (w_priv w)) w) else
  let res_flush_in :=
    BodyResourceFlush (full_screen dev (w_uc_priv w))
      (cpu_to_virtio32 dev (scanout_res_id (w_priv w))) 0 in
  call ((ret, ctrl_hdr_out), w) <-
    virtio_gpu_do_req dev VIRTIO_GPU_CMD_RESOURCE_FLUSH res_flush_in
      sizeof_resource_flush ctrl_hdr_out sizeof_ctrl_hdr true w;
  if negb (ret =? VIRTIO_GPU_RESP_OK_NODATA)
  then Ret (- EINVAL) (set_priv (set_in_sync false (w_priv w)) w) else
  Ret 0 (set_priv (set_in_sync false (w_priv w)) w).

(** *** Running the driver *)

(** The driver model zeroes the private data ([priv_auto]); nothing is
    allocated and nothing has been sent. *)
Definition initial_world : world :=
  {| w_priv := {| vq := 0; scanout_res_id := 0; fence_id := 0;
                  in_sync := false |};
     w_uc_priv := {| xsize := 0; ysize := 0; bpix := VideoFormat.VIDEO_BPP8 |};
     w_plat := {| base := 0; size := 0 |};
     w_live := ∅;
     w_trace := [] |}.

(** Entry points in the order the driver model invokes them.  [Reserve]
    stands for the video uclass placing the framebuffer between bind and
    probe. *)
Inductive entry :=
| Bind
| Reserve (fb : Z)
| Probe
| Sync.

Definition enter (cfg : config) (dev : udevice) (e : entry) (w : world)
    : result Z :=
  match e with
  | Bind => virtio_gpu_bind cfg w
  | Reserve fb => Ret 0 (set_plat {| base := fb; size := size (w_plat w) |} w)
  | Probe => virtio_gpu_probe cfg dev w
  | Sync => virtio_gpu_video_sync dev w
  end.

(** Runs the entry points one after the other and collects what they
    return; stops where one of them does not return. *)
Fixpoint run (cfg : config) (dev : udevice) (es : list entry) (w : world)
    : result (list Z) :=
  match es with
  | [] => Ret [] w
  | e :: es =>
      call (ret, w) <- enter cfg dev e w;
      call (rets, w) <- run cfg dev es w;
      Ret (ret :: rets) w
  end.

(** One call of the transport adapter, and a sequence of them. *)
Record req_call := {
  c_type : virtio_gpu_ctrl_type;
  c_body : req_body;
  c_in_size : Z;
  c_out_size : Z;
  c_flush : bool
}.

Fixpoint do_reqs (dev : udevice) (cs : list req_call) (out : response)
    (w : world) : result (list Z) :=
  match cs with
  | [] => Ret [] w
  | c :: cs =>
      call ((ret, out), w) <-
        virtio_gpu_do_req dev (c_type c) (c_body c) (c_in_size c) out
          (c_out_size c) (c_flush c) w;
      call (rets, w) <- do_reqs dev cs out w;
      Ret (ret :: rets) w
  end.

(** The world a result leaves behind. *)
Definition world_of {A : Type} (m : result A) : world :=
  match m with
  | Ret _ w => w
  | Hang w => w
  | OutOfFuel w => w
  end.

(** Reading the trace. *)
Definition is_cmd (dev : udevice) (t : virtio_gpu_ctrl_type) (rq : request)
    : bool :=
  virtio32_to_cpu dev (hdr_type (rq_hdr rq)) =? ctrl_code t.

Definition fenced (rq : request) : bool :=
  negb (hdr_flags (rq_hdr rq) =? 0).

Definition fence_of (dev : udevice) (rq : request) : Z :=
  virtio64_to_cpu dev (hdr_fence_id (rq_hdr rq)).

(** Postconditions: [returns_with m Q] holds when [m], if it returns,
    returns a value and a world that satisfy [Q]; [leaves m Q] when the
    world [m] ends in satisfies [Q], whether it returns or hangs;
    [has_fuel m] when the model did not run out of fuel. *)
Definition returns_with {A : Type} (m : result A) (Q : A -> world -> Prop)
    : Prop :=
  match m with
  | Ret a w => Q a w
  | _ => True
  end.

Definition leaves {A : Type} (m : result A) (Q : world -> Prop) : Prop :=
  Q (world_of m).

Definition has_fuel {A : Type} (m : result A) : Prop :=
  match m with
  | OutOfFuel _ => False
  | _ => True
  end.

(** The resource id recorded in the instance is 1 once a
    RESOURCE_CREATE_2D request has been placed on the queue, and 0 before. *)
Definition resource_id_tracks_create (dev : udevice) (w : world) : Prop :=
  scanout_res_id (w_priv w) =
  if existsb (is_cmd dev VIRTIO_GPU_CMD_RESOURCE_CREATE_2D) (w_trace w)
  then 1 else 0.

(** *** Sample devices *)

Definition hdr_of_type (t : Z) : virtio_gpu_ctrl_hdr :=
  {| hdr_type := t; hdr_flags := 0; hdr_fence_id := 0; hdr_ctx_id := 0;
     hdr_ring_idx := 0 |}.

Definition display_one (enabled : Z) : virtio_gpu_display_one :=
  {| d_r := {| r_x := 0; r_y := 0; r_width := 1024; r_height := 768 |};
     d_enabled := enabled; d_flags := 0 |}.

Definition no_data (t : Z) : response :=
  {| resp_hdr := hdr_of_type t; resp_pmodes := [] |}.

(** A display-info response with the given [enabled] words, padded with
    disabled scanouts to the full array. *)
Definition display_info (enabled : list Z) : response :=
  {| resp_hdr := hdr_of_type VIRTIO_GPU_RESP_OK_DISPLAY_INFO;
     resp_pmodes :=
       map display_one
         (take VIRTIO_GPU_MAX_SCANOUTS
            (enabled ++ replicate VIRTIO_GPU_MAX_SCANOUTS 0)) |}.

Definition last_code (trace : list request) : Z :=
  match last trace with
  | Some rq => hdr_type (rq_hdr rq)
  | None => 0
  end.

(** A little-endian host in front of a device that reports the given
    scanouts and answers the command with code [bad] with the response
    type [err], every other command with OK_NODATA. *)
Definition sample_dev (enabled : list Z) (bad err : Z) : udevice :=
  {| host_le := true;
     version_1 := true;
     find_vqs_ret := 0;
     find_vqs_vq := 1;
     dev_reply := fun trace =>
       let code := last_code trace in
       if code =? ctrl_code VIRTIO_GPU_CMD_GET_DISPLAY_INFO
       then Completes sizeof_resp_display_info (display_info enabled)
       else if code =? bad then Completes sizeof_ctrl_hdr (no_data err)
       else Completes sizeof_ctrl_hdr (no_data VIRTIO_GPU_RESP_OK_NODATA);
     virt_to_phys := fun a => a;
     uninit := no_data 0 |}.

(** A device that completes every request with OK_NODATA but reports a
    used length of zero. *)
Definition terse_dev : udevice :=
  {| host_le := true;
     version_1 := true;
     find_vqs_ret := 0;
     find_vqs_vq := 1;
     dev_reply := fun _ => Completes 0 (no_data VIRTIO_GPU_RESP_OK_NODATA);
     virt_to_phys := fun a => a;
     uninit := no_data 0 |}.

(** A device that answers every command as the driver expects. *)
Definition healthy_dev (enabled : list Z) : udevice :=
  sample_dev enabled 0 VIRTIO_GPU_RESP_OK_NODATA.

Definition VIRTIO_GPU_RESP_ERR_UNSPEC : Z := 0x1200.

Definition sample_cfg : config :=
  {| VIRTIO_GPU_SIZE_X := 1280; VIRTIO_GPU_SIZE_Y := 1024 |}.

Definition reserved_world : world :=
  set_plat {| base := 0x80000000; size := 1280 * 1280 * 4 |} initial_world.

(** *** What the driver is expected to put on the queue *)

Definition unfenced_request (dev : udevice) (t : virtio_gpu_ctrl_type)
    (body : req_body) (in_size out_size : Z) : request :=
  {| rq_hdr := {| hdr_type := cpu_to_virtio32 dev (ctrl_code t);
                  hdr_flags := 0; hdr_fence_id := 0;
                  hdr_ctx_id := 0; hdr_ring_idx := 0 |};
     rq_body := body; rq_in_size := in_size; rq_out_size := out_size |}.

Definition fenced_request (dev : udevice) (t : virtio_gpu_ctrl_type)
    (fence : Z) (body : req_body) (in_size out_size : Z) : request :=
  {| rq_hdr := {| hdr_type := cpu_to_virtio32 dev (ctrl_code t);
                  hdr_flags := cpu_to_virtio32 dev VIRTIO_GPU_FLAG_FENCE;
                  hdr_fence_id := cpu_to_virtio64 dev fence;
                  hdr_ctx_id := 0; hdr_ring_idx := 0 |};
     rq_body := body; rq_in_size := in_size; rq_out_size := out_size |}.

Definition get_display_info_request (dev : udevice) : request :=
  unfenced_request dev VIRTIO_GPU_CMD_GET_DISPLAY_INFO BodyNone 24 408.

(** RESOURCE_CREATE_2D for resource 1: the configured size as the 16-bit
    geometry fields hold it, format B8G8R8X8. *)
Definition resource_create_2d_request (cfg : config) (dev : udevice)
    : request :=
  unfenced_request dev VIRTIO_GPU_CMD_RESOURCE_CREATE_2D
    (BodyResourceCreate2d (cpu_to_virtio32 dev 1) (cpu_to_virtio32 dev 2)
       (cpu_to_virtio32 dev (u16 (VIRTIO_GPU_SIZE_X cfg)))
       (cpu_to_virtio32 dev (u16 (VIRTIO_GPU_SIZE_Y cfg))))
    40 24.

Definition resource_attach_backing_request (dev : udevice)
    (plat : video_uc_plat) : request :=
  unfenced_request dev VIRTIO_GPU_CMD_RESOURCE_ATTACH_BACKING
    (BodyResourceAttachBacking (cpu_to_virtio32 dev 1) (cpu_to_virtio32 dev 1)
       [ {| m_addr := cpu_to_virtio64 dev (virt_to_phys dev (base plat));
            m_length := cpu_to_virtio32 dev (size plat);
            m_padding := 0 |} ])
    48 24.

(** SET_SCANOUT for scanout [i]: the whole screen, which is the
    configured size as the 16-bit geometry fields hold it, and
    resource 1. *)
Definition set_scanout_request (cfg : config) (dev : udevice) (i : nat)
    : request :=
  unfenced_request dev VIRTIO_GPU_CMD_SET_SCANOUT
    (BodySetScanout
       {| r_x := 0; r_y := 0;
          r_width := cpu_to_virtio32 dev (u16 (VIRTIO_GPU_SIZE_X cfg));
          r_height := cpu_to_virtio32 dev (u16 (VIRTIO_GPU_SIZE_Y cfg)) |}
       (cpu_to_virtio32 dev (Z.of_nat i)) (cpu_to_virtio32 dev 1))
    48 24.

(** The two requests of a flush started in world [w]. *)
Definition transfer_to_host_2d_request (dev : udevice) (w : world) : request :=
  fenced_request dev VIRTIO_GPU_CMD_TRANSFER_TO_HOST_2D (fence_id (w_priv w))
    (BodyTransferToHost2d (full_screen dev (w_uc_priv w)) 0
       (cpu_to_virtio32 dev (scanout_res_id (w_priv w))) 0)
    56 24.

Definition resource_flush_request (dev : udevice) (w : world) : request :=
  fenced_request dev VIRTIO_GPU_CMD_RESOURCE_FLUSH
    (u64 (fence_id (w_priv w) + 1))
    (BodyResourceFlush (full_screen dev (w_uc_priv w))
       (cpu_to_virtio32 dev (scanout_res_id (w_priv w))) 0)
    48 24.

(** The request a call of [virtio_gpu_do_req] places on the queue, and the
    world it leaves behind. *)
Definition sent_request (dev : udevice) (t : virtio_gpu_ctrl_type)
    (body : req_body) (isz osz : Z) (flush : bool) (w : world) : request :=
  if flush then fenced_request dev t (fence_id (w_priv w)) body isz osz
  else unfenced_request dev t body isz osz.

Definition after_request (flush : bool) (rq : request) (w : world) : world :=
  push_request rq
    (if flush
     then set_priv (set_fence_id (u64 (fence_id (w_priv w) + 1)) (w_priv w)) w
     else w).

(** What the header of a request must look like for a call that did, or
    did not, ask for a fence. *)
Definition request_matches (dev : udevice) (c : req_call) (rq : request)
    : Prop :=
  if c_flush c
  then fenced rq = true
  else hdr_flags (rq_hdr rq) = 0 ∧ hdr_fence_id (rq_hdr rq) = 0.

(** The indices [a], [a+1], ..., [a+n-1] that satisfy [P], ascending. *)
Fixpoint indices_from (P : nat -> bool) (a n : nat) : list nat :=
  match n with
  | O => []
  | S n => (if P a then [a] else []) ++ indices_from P (S a) n
  end.

(** The indices of the enabled scanout descriptors, ascending. *)
Definition enabled_scanouts (pmodes : list virtio_gpu_display_one)
    : list nat :=
  indices_from (scanout_enabled pmodes) 0 VIRTIO_GPU_MAX_SCANOUTS.

(** The set bits of a 32-bit mask, ascending. *)
Definition mask_bits (mask : Z) : list nat :=
  indices_from (fun i => Z.testbit mask (Z.of_nat i)) 0 32.

(** What [virtio_gpu_do_req] returns for a reply of the transport, when
    it returns. *)
Definition exchange_ret (dev : udevice) (rp : reply) : option Z :=
  match rp with
  | AddFails errno => Some (- Z.pos errno)
  | Completes _ out =>
      Some (to_int (virtio32_to_cpu dev (hdr_type (resp_hdr out))))
  | NeverCompletes => None
  end.

(** The device, having seen the requests [hist], completes each of the
    requests [reqs], submitted in turn, with the response type
    OK_NODATA.  Nothing is asked of its answer to any other request or
    after any other history. *)
Fixpoint accepts (dev : udevice) (hist reqs : list request) : Prop :=
  match reqs with
  | [] => True
  | rq :: reqs =>
      (∃ len out,
          dev_reply dev (hist ++ [rq]) = Completes len out ∧
          to_int (virtio32_to_cpu dev (hdr_type (resp_hdr out))) =
          VIRTIO_GPU_RESP_OK_NODATA) ∧
      accepts dev (hist ++ [rq]) reqs
  end.

(** A device that completes every request other than GET_DISPLAY_INFO
    with the response type OK_NODATA. *)
Definition answers_ok_nodata (dev : udevice) : Prop :=
  ∀ (hist : list request) (rq : request),
    is_cmd dev VIRTIO_GPU_CMD_GET_DISPLAY_INFO rq = false →
    ∃ len out,
      dev_reply dev (hist ++ [rq]) = Completes len out ∧
      to_int (virtio32_to_cpu dev (hdr_type (resp_hdr out))) =
      VIRTIO_GPU_RESP_OK_NODATA.

(** Configurations in which no width cuts a value short: both sizes are
    positive and fit the 16-bit geometry fields of the display subsystem,
    and the [int] product in [virtio_gpu_bind] does not overflow. *)
Definition config_in_range (cfg : config) : Prop :=
  0 < VIRTIO_GPU_SIZE_X cfg < 2 ^ 16 ∧
  0 < VIRTIO_GPU_SIZE_Y cfg < 2 ^ 16 ∧
  VIRTIO_GPU_SIZE_X cfg * VIRTIO_GPU_SIZE_X cfg * 4 < 2 ^ 31.

(** Bytes of framebuffer the geometry reported to the display subsystem
    needs. *)
Definition geometry_bytes (uc_priv : video_priv) : Z :=
  xsize uc_priv * ysize uc_priv * VideoFormat.VNBYTES (bpix uc_priv).

(** The descriptors the device reported in answer to GET_DISPLAY_INFO
    when bring-up starts in world [w]; none when that exchange does not
    complete. *)
Definition display_info_reply (dev : udevice) (w : world)
    : list virtio_gpu_display_one :=
  match dev_reply dev (w_trace w ++ [get_display_info_request dev]) with
  | Completes _ out => resp_pmodes out
  | _ => []
  end.

(** The requests of a complete bring-up, in order. *)
Definition bring_up_sequence (cfg : config) (dev : udevice)
    (plat : video_uc_plat) (pmodes : list virtio_gpu_display_one)
    : list request :=
  [ get_display_info_request dev;
    resource_create_2d_request cfg dev;
    resource_attach_backing_request dev plat ] ++
  map (set_scanout_request cfg dev) (enabled_scanouts pmodes).

(** A device that never completes a request. *)
Definition stalled_dev : udevice :=
  {| host_le := true;
     version_1 := true;
     find_vqs_ret := 0;
     find_vqs_vq := 1;
     dev_reply := fun _ => NeverCompletes;
     virt_to_phys := fun a => a;
     uninit := no_data 0 |}.

(** A transport whose [virtqueue_add] always fails with the given error
    number. *)
Definition full_queue_dev (errno : positive) : udevice :=
  {| host_le := true;
     version_1 := true;
     find_vqs_ret := 0;
     find_vqs_vq := 1;
     dev_reply := fun _ => AddFails errno;
     virt_to_phys := fun a => a;
     uninit := no_data 0 |}.

(** A transport on which the command queue cannot be found. *)
Definition no_queue_dev (err : Z) : udevice :=
  {| host_le := true;
     version_1 := true;
     find_vqs_ret := err;
     find_vqs_vq := 0;
     dev_reply := fun _ => NeverCompletes;
     virt_to_phys := fun a => a;
     uninit := no_data 0 |}.

End VirtioGpu.

(** ** Facts about fixed-width integers *)

Module IntFacts.
Import Int.

Lemma u16_small x : 0 ≤ x < 2 ^ 16 → u16 x = x.
Proof. intros H. unfold u16. now apply Z.mod_small. Qed.

Lemma u32_small x : 0 ≤ x < 2 ^ 32 → u32 x = x.
Proof. intros H. unfold u32. now apply Z.mod_small. Qed.

Lemma u32_range x : 0 ≤ u32 x < 2 ^ 32.
Proof. unfold u32. apply Z.mod_pos_bound. lia. Qed.

Lemma u64_small x : 0 ≤ x < 2 ^ 64 → u64 x = x.
Proof. intros H. unfold u64. now apply Z.mod_small. Qed.

Lemma testbit_u32 x k : Z.testbit (u32 x) k = (k <? 32) && Z.testbit x k.
Proof. unfold u32. apply Z.testbit_mod_pow2. lia. Qed.

Lemma to_int_small x : 0 ≤ x < 2 ^ 31 → to_int x = x.
Proof.
  intros H. unfold to_int. rewrite u32_small by lia.
  destruct (Z.ltb_spec x (2 ^ 31)); lia.
Qed.

(** A shifted value and a value below the shift do not overlap. *)
Lemma lor_shiftl_low a c k :
  0 ≤ k → 0 ≤ c < 2 ^ k → Z.lor (Z.shiftl a k) c = a * 2 ^ k + c.
Proof.
  intros Hk Hc.
  assert (Hland : Z.land (Z.shiftl a k) c = 0).
  { apply Z.bits_inj'. intros n Hn.
    rewrite Z.land_spec, Z.bits_0.
    destruct (Z.lt_ge_cases n k) as [Hlt | Hge].
    - now rewrite Z.shiftl_spec_low.
    - rewrite <- (Z.mod_small c (2 ^ k)) by lia.
      rewrite Z.mod_pow2_bits_high by lia.
      apply andb_false_r. }
  rewrite <- (Z.shiftl_mul_pow2 a k) by lia.
  rewrite <- Z.add_lor_land, Hland. lia.
Qed.

Lemma le_bytes_length n x : length (le_bytes n x) = n.
Proof. revert x. induction n as [| n IH]; intros x; simpl; auto. Qed.

Lemma le_bytes_range n x : Forall (fun b => 0 ≤ b < 256) (le_bytes n x).
Proof.
  revert x. induction n as [| n IH]; intros x; simpl; constructor.
  - apply Z.mod_pos_bound. lia.
  - apply IH.
Qed.

Lemma of_le_bytes_le_bytes n x :
  of_le_bytes (le_bytes n x) = x mod 256 ^ Z.of_nat n.
Proof.
  revert x. induction n as [| n IH]; intros x.
  - simpl. now rewrite Z.mod_1_r.
  - cbn [le_bytes of_le_bytes]. rewrite IH.
    rewrite Nat2Z.inj_succ, Z.pow_succ_r by lia.
    rewrite Z.rem_mul_r by lia. lia.
Qed.

Lemma le_bytes_of_le_bytes l :
  Forall (fun b => 0 ≤ b < 256) l →
  le_bytes (length l) (of_le_bytes l) = l.
Proof.
  induction 1 as [| b l Hb Hl IH]; [reflexivity |].
  cbn [length le_bytes of_le_bytes].
  replace (b + 256 * of_le_bytes l) with (b + of_le_bytes l * 256) by lia.
  rewrite Z.mod_add, Z.div_add by lia.
  rewrite (Z.mod_small b), (Z.div_small b) by lia.
  rewrite Z.add_0_l.
  now rewrite IH.
Qed.

(** Swapping the bytes twice gives the value back, reduced to the width. *)
Lemma bswap_bswap n x : bswap n (bswap n x) = x mod 256 ^ Z.of_nat n.
Proof.
  unfold bswap.
  assert (Hlen : length (rev (le_bytes n x)) = n)
    by now rewrite length_rev, le_bytes_length.
  rewrite <- Hlen at 1.
  rewrite le_bytes_of_le_bytes.
  - rewrite rev_involutive. apply of_le_bytes_le_bytes.
  - apply Forall_rev, le_bytes_range.
Qed.

Lemma bswap_range n x : 0 ≤ bswap n x < 256 ^ Z.of_nat n.
Proof.
  unfold bswap.
  assert (H : ∀ l, Forall (fun b => 0 ≤ b < 256) l →
                   0 ≤ of_le_bytes l < 256 ^ Z.of_nat (length l)).
  { induction 1 as [| b l Hb Hl IH]; [simpl; lia |].
    cbn [length of_le_bytes].
    rewrite Nat2Z.inj_succ, Z.pow_succ_r by lia. lia. }
  specialize (H (rev (le_bytes n x))).
  rewrite length_rev, le_bytes_length in H.
  apply H, Forall_rev, le_bytes_range.
Qed.

Lemma lor_range a b n :
  0 ≤ n → 0 ≤ a < 2 ^ n → 0 ≤ b < 2 ^ n → 0 ≤ Z.lor a b < 2 ^ n.
Proof.
  intros Hn Ha Hb.
  assert (Hmod : Z.lor a b mod 2 ^ n = Z.lor a b).
  { apply Z.bits_inj'. intros k Hk.
    rewrite Z.testbit_mod_pow2, Z.lor_spec by lia.
    destruct (Z.ltb_spec k n) as [Hlt | Hge]; [reflexivity |].
    rewrite <- (Z.mod_small a (2 ^ n)), <- (Z.mod_small b (2 ^ n)) by lia.
    now rewrite !Z.mod_pow2_bits_high by lia. }
  rewrite <- Hmod. apply Z.mod_pos_bound. lia.
Qed.

Lemma le_bytes_mod n x : le_bytes n (x mod 256 ^ Z.of_nat n) = le_bytes n x.
Proof.
  rewrite <- of_le_bytes_le_bytes.
  rewrite <- (le_bytes_length n x) at 1.
  apply le_bytes_of_le_bytes, le_bytes_range.
Qed.

Lemma le_bytes_bswap n x : le_bytes n (bswap n x) = rev (le_bytes n x).
Proof.
  unfold bswap.
  assert (Hlen : length (rev (le_bytes n x)) = n)
    by now rewrite length_rev, le_bytes_length.
  rewrite <- Hlen at 1.
  apply le_bytes_of_le_bytes, Forall_rev, le_bytes_range.
Qed.

(** What lands in memory when a value converted to little-endian, or to
    big-endian, is stored by the host. *)
Lemma stored_le h n x :
  stored h n (if h then x mod 256 ^ Z.of_nat n else bswap n x) =
  le_bytes n x.
Proof.
  unfold stored. destruct h.
  - apply le_bytes_mod.
  - now rewrite le_bytes_bswap, rev_involutive.
Qed.

Lemma stored_be h n x :
  stored h n (if h then bswap n x else x mod 256 ^ Z.of_nat n) =
  rev (le_bytes n x).
Proof.
  unfold stored. destruct h.
  - apply le_bytes_bswap.
  - now rewrite le_bytes_mod.
Qed.

Lemma cpu_to_le32_twice h x : cpu_to_le32 h (cpu_to_le32 h x) = u32 x.
Proof.
  unfold cpu_to_le32, u32. destruct h.
  - apply Z.mod_mod. lia.
  - apply bswap_bswap.
Qed.

End IntFacts.

(** ** Properties of the pixel conversion *)

Module VideoFormatSpec.
Import Int VideoFormat.

Lemma byte_val_range x : 0 ≤ byte_val x < 256.
Proof.
  unfold byte_val. pose proof (Byte.to_N_bounded x). lia.
Qed.

Lemma xbgr_layout host_le rgb :
  pixel32_layout host_le VIDEO_XBGR8888 rgb =
  byte_val (b rgb) * 2 ^ 16 + byte_val (g rgb) * 2 ^ 8 + byte_val (b rgb).
Proof.
  unfold pixel32_layout. cbv beta iota zeta.
  pose proof (byte_val_range (g rgb)) as Hg.
  pose proof (byte_val_range (b rgb)) as Hb.
  rewrite <- Z.lor_assoc.
  rewrite (IntFacts.lor_shiftl_low (byte_val (g rgb)) (byte_val (b rgb)) 8)
    by lia.
  rewrite IntFacts.lor_shiftl_low by lia.
  rewrite IntFacts.u32_small; lia.
Qed.

(** C10. For VIDEO_XBGR8888 the 32-bit pixel does not depend on the red
    component: two colours that differ only in [r] convert to the same
    value, on either host byte order.  On a little-endian host bits 16..23
    and bits 0..7 both hold the blue component, bits 8..15 the green one,
    and the top byte is clear. *)
Theorem xbgr8888_ignores_red :
  (∀ host_le r1 r2 g0 b0,
      video_rgb_to_pixel32 host_le VIDEO_XBGR8888
        {| r := r1; g := g0; b := b0 |} =
      video_rgb_to_pixel32 host_le VIDEO_XBGR8888
        {| r := r2; g := g0; b := b0 |}) ∧
  (∀ rgb,
      let p := video_rgb_to_pixel32 true VIDEO_XBGR8888 rgb in
      Z.land (Z.shiftr p 16) 255 = byte_val (b rgb) ∧
      Z.land (Z.shiftr p 8) 255 = byte_val (g rgb) ∧
      Z.land p 255 = byte_val (b rgb) ∧
      Z.shiftr p 24 = 0).
Proof.
  split.
  - intros host_le r1 r2 g0 b0.
    unfold video_rgb_to_pixel32. now rewrite !xbgr_layout.
  - intros rgb p. subst p.
    unfold video_rgb_to_pixel32, cpu_to_le32.
    rewrite xbgr_layout.
    pose proof (byte_val_range (g rgb)) as Hg.
    pose proof (byte_val_range (b rgb)) as Hb.
    rewrite IntFacts.u32_small by lia.
    change 255 with (Z.ones 8).
    rewrite !Z.land_ones, !Z.shiftr_div_pow2 by lia.
    repeat split; Z.div_mod_to_equations; lia.
Qed.

(** *** The other layouts *)

(** Shifts and masks of bytes as quotients and remainders, ready for
    [lia]. *)
Ltac mask_to_mod n k :=
  repeat match goal with
  | |- context [Z.land ?x n] =>
      change (Z.land x n) with (Z.land x (Z.ones k));
      rewrite (Z.land_ones x k) by lia
  end.

Ltac byte_arith :=
  mask_to_mod 255 8; mask_to_mod 1023 10; mask_to_mod 63 6;
  mask_to_mod 31 5; mask_to_mod 7 3; mask_to_mod 3 2;
  rewrite ?Z.shiftr_div_pow2, ?Z.shiftl_mul_pow2 by lia;
  Z.div_mod_to_equations; lia.

Lemma rgb332_layout rgb :
  video_rgb_to_pixel8 VIDEO_RGB332 rgb =
  Z.shiftr (byte_val (r rgb)) 5 * 2 ^ 5 +
  (Z.shiftr (byte_val (g rgb)) 5 * 2 ^ 2 + Z.shiftr (byte_val (b rgb)) 6).
Proof.
  unfold video_rgb_to_pixel8. cbv beta iota zeta.
  pose proof (byte_val_range (r rgb)) as Hr.
  pose proof (byte_val_range (g rgb)) as Hg.
  pose proof (byte_val_range (b rgb)) as Hb.
  rewrite <- Z.lor_assoc.
  rewrite (IntFacts.lor_shiftl_low _ (Z.shiftr (byte_val (b rgb)) 6) 2);
    [| lia | byte_arith].
  rewrite IntFacts.lor_shiftl_low; [| lia | byte_arith].
  unfold u8. apply Z.mod_small. byte_arith.
Qed.

(** X1. [video_rgb_to_pixel8] keeps the top three bits of red, the top
    three bits of green and the top two bits of blue, in that order from
    bit 7 down; VIDEO_DEFAULT means the same layout; every other format
    converts to 0. *)
Theorem pixel8_keeps_top_bits rgb :
  let p := video_rgb_to_pixel8 VIDEO_RGB332 rgb in
  0 ≤ p < 256 ∧
  Z.shiftr p 5 = Z.shiftr (byte_val (r rgb)) 5 ∧
  Z.land (Z.shiftr p 2) 7 = Z.shiftr (byte_val (g rgb)) 5 ∧
  Z.land p 3 = Z.shiftr (byte_val (b rgb)) 6 ∧
  video_rgb_to_pixel8 VIDEO_DEFAULT rgb = p ∧
  ∀ format, format ≠ VIDEO_DEFAULT → format ≠ VIDEO_RGB332 →
            video_rgb_to_pixel8 format rgb = 0.
Proof.
  intros p. subst p. rewrite rgb332_layout.
  pose proof (byte_val_range (r rgb)) as Hr.
  pose proof (byte_val_range (g rgb)) as Hg.
  pose proof (byte_val_range (b rgb)) as Hb.
  split; [byte_arith |]. split; [byte_arith |]. split; [byte_arith |].
  split; [byte_arith |]. split; [apply rgb332_layout |].
  intros format H1 H2. destruct format; try reflexivity; contradiction.
Qed.

Lemma rgb565_layout format rgb :
  format = VIDEO_DEFAULT ∨ format = VIDEO_RGB565 ∨ format = VIDEO_RGB565_BE →
  pixel16_layout format rgb =
  Z.shiftr (byte_val (r rgb)) 3 * 2 ^ 11 +
  (Z.shiftr (byte_val (g rgb)) 2 * 2 ^ 5 + Z.shiftr (byte_val (b rgb)) 3).
Proof.
  intros Hf.
  pose proof (byte_val_range (r rgb)) as Hr.
  pose proof (byte_val_range (g rgb)) as Hg.
  pose proof (byte_val_range (b rgb)) as Hb.
  assert (Hval :
    u32 (Z.lor (Z.lor (Z.shiftl (Z.shiftr (byte_val (r rgb)) 3) 11)
                  (Z.shiftl (Z.shiftr (byte_val (g rgb)) 2) 5))
           (Z.shiftl (Z.shiftr (byte_val (b rgb)) 3) 0)) =
    Z.shiftr (byte_val (r rgb)) 3 * 2 ^ 11 +
    (Z.shiftr (byte_val (g rgb)) 2 * 2 ^ 5 + Z.shiftr (byte_val (b rgb)) 3)).
  { rewrite Z.shiftl_0_r, <- Z.lor_assoc.
    rewrite (IntFacts.lor_shiftl_low _ (Z.shiftr (byte_val (b rgb)) 3) 5);
      [| lia | byte_arith].
    rewrite IntFacts.lor_shiftl_low; [| lia | byte_arith].
    apply IntFacts.u32_small. byte_arith. }
  destruct Hf as [-> | [-> | ->]]; exact Hval.
Qed.

(** X2. On a little-endian host the RGB565 pixel holds the top five bits
    of red in bits 11..15, the top six bits of green in bits 5..10 and the
    top five bits of blue in bits 0..4, and fits 16 bits. *)
Theorem pixel16_rgb565_fields rgb :
  let p := video_rgb_to_pixel16 true VIDEO_RGB565 rgb in
  0 ≤ p < 2 ^ 16 ∧
  Z.shiftr p 11 = Z.shiftr (byte_val (r rgb)) 3 ∧
  Z.land (Z.shiftr p 5) 63 = Z.shiftr (byte_val (g rgb)) 2 ∧
  Z.land p 31 = Z.shiftr (byte_val (b rgb)) 3.
Proof.
  intros p. subst p. unfold video_rgb_to_pixel16, cpu_to_le16, u16.
  rewrite rgb565_layout by auto.
  pose proof (byte_val_range (r rgb)) as Hr.
  pose proof (byte_val_range (g rgb)) as Hg.
  pose proof (byte_val_range (b rgb)) as Hb.
  assert (Hsmall :
    (Z.shiftr (byte_val (r rgb)) 3 * 2 ^ 11 +
     (Z.shiftr (byte_val (g rgb)) 2 * 2 ^ 5 +
      Z.shiftr (byte_val (b rgb)) 3)) mod 2 ^ 16 =
    Z.shiftr (byte_val (r rgb)) 3 * 2 ^ 11 +
    (Z.shiftr (byte_val (g rgb)) 2 * 2 ^ 5 + Z.shiftr (byte_val (b rgb)) 3)).
  { apply Z.mod_small. byte_arith. }
  rewrite Hsmall.
  split; [byte_arith |]. split; [byte_arith |]. split; byte_arith.
Qed.

(** X3. What [video_rgb_to_pixel16] leaves in memory does not depend on
    the byte order of the host: RGB565 (and VIDEO_DEFAULT) is stored low
    byte first, RGB565_BE high byte first, and a format without a 16-bit
    layout is stored as two zero bytes. *)
Theorem pixel16_memory_layout host_le format rgb :
  stored host_le 2 (video_rgb_to_pixel16 host_le format rgb) =
  match format with
  | VIDEO_RGB565_BE => rev (le_bytes 2 (pixel16_layout format rgb))
  | VIDEO_DEFAULT | VIDEO_RGB565 => le_bytes 2 (pixel16_layout format rgb)
  | _ => [0; 0]
  end.
Proof.
  unfold video_rgb_to_pixel16, cpu_to_le16, cpu_to_be16, u16.
  change (2 ^ 16) with (256 ^ Z.of_nat 2).
  destruct format;
    first [apply IntFacts.stored_le | apply IntFacts.stored_be
          | now destruct host_le].
Qed.

Lemma byte_val_inj x y : byte_val x = byte_val y → x = y.
Proof.
  unfold byte_val. intros H. apply N2Z.inj in H.
  pose proof (Byte.of_to_N x) as Hx. pose proof (Byte.of_to_N y) as Hy.
  rewrite H in Hx. congruence.
Qed.

Lemma xrgb_layout rgb :
  pixel32_layout true VIDEO_XRGB8888 rgb =
  byte_val (r rgb) * 2 ^ 16 + (byte_val (g rgb) * 2 ^ 8 + byte_val (b rgb)).
Proof.
  unfold pixel32_layout. cbv beta iota zeta.
  pose proof (byte_val_range (r rgb)) as Hr.
  pose proof (byte_val_range (g rgb)) as Hg.
  pose proof (byte_val_range (b rgb)) as Hb.
  rewrite <- Z.lor_assoc.
  rewrite (IntFacts.lor_shiftl_low (byte_val (g rgb)) (byte_val (b rgb)) 8)
    by lia.
  rewrite IntFacts.lor_shiftl_low by lia.
  apply IntFacts.u32_small. lia.
Qed.

(** X4. XRGB8888 loses nothing: on a little-endian host red, green and
    blue can be read back from bits 16..23, 8..15 and 0..7, and on either
    host two colours that convert to the same pixel are the same colour. *)
Theorem xrgb8888_round_trip :
  (∀ rgb,
      let p := video_rgb_to_pixel32 true VIDEO_XRGB8888 rgb in
      Z.land (Z.shiftr p 16) 255 = byte_val (r rgb) ∧
      Z.land (Z.shiftr p 8) 255 = byte_val (g rgb) ∧
      Z.land p 255 = byte_val (b rgb) ∧
      Z.shiftr p 24 = 0) ∧
  (∀ host_le rgb1 rgb2,
      video_rgb_to_pixel32 host_le VIDEO_XRGB8888 rgb1 =
      video_rgb_to_pixel32 host_le VIDEO_XRGB8888 rgb2 →
      rgb1 = rgb2).
Proof.
  split.
  - intros rgb p. subst p. unfold video_rgb_to_pixel32, cpu_to_le32.
    rewrite xrgb_layout.
    pose proof (byte_val_range (r rgb)) as Hr.
    pose proof (byte_val_range (g rgb)) as Hg.
    pose proof (byte_val_range (b rgb)) as Hb.
    rewrite IntFacts.u32_small by lia.
    split; [byte_arith |]. split; [byte_arith |]. split; byte_arith.
  - intros host_le rgb1 rgb2 Heq. unfold video_rgb_to_pixel32 in Heq.
    apply (f_equal (cpu_to_le32 host_le)) in Heq.
    rewrite !IntFacts.cpu_to_le32_twice in Heq.
    change (pixel32_layout host_le VIDEO_XRGB8888)
      with (pixel32_layout true VIDEO_XRGB8888) in Heq.
    rewrite !xrgb_layout in Heq.
    pose proof (byte_val_range (r rgb1)). pose proof (byte_val_range (g rgb1)).
    pose proof (byte_val_range (b rgb1)). pose proof (byte_val_range (r rgb2)).
    pose proof (byte_val_range (g rgb2)). pose proof (byte_val_range (b rgb2)).
    rewrite !IntFacts.u32_small in Heq by lia.
    destruct rgb1 as [r1 g1 b1], rgb2 as [r2 g2 b2]. cbn [r g b] in *.
    f_equal; apply byte_val_inj; lia.
Qed.

Lemma bgrx_layout host_le rgb :
  pixel32_layout host_le VIDEO_BGRX8888 rgb =
  byte_val (b rgb) * 2 ^ 24 +
  Z.lor (byte_val (g rgb)) (byte_val (r rgb)) * 2 ^ 8.
Proof.
  unfold pixel32_layout. cbv beta iota zeta.
  pose proof (byte_val_range (r rgb)) as Hr.
  pose proof (byte_val_range (g rgb)) as Hg.
  pose proof (byte_val_range (b rgb)) as Hb.
  pose proof (IntFacts.lor_range (byte_val (g rgb)) (byte_val (r rgb)) 8)
    as Hgr.
  rewrite <- Z.lor_assoc, <- Z.shiftl_lor.
  rewrite IntFacts.lor_shiftl_low; [| lia | byte_arith].
  rewrite Z.shiftl_mul_pow2 by lia.
  apply IntFacts.u32_small. lia.
Qed.

(** X5. BGRX8888 shifts red and green by the same amount: on a
    little-endian host blue is the top byte, bits 8..15 hold the bitwise
    OR of green and red, and the two other bytes are zero; so on either
    host exchanging red and green does not change the pixel. *)
Theorem bgrx8888_merges_red_and_green :
  (∀ rgb,
      let p := video_rgb_to_pixel32 true VIDEO_BGRX8888 rgb in
      Z.shiftr p 24 = byte_val (b rgb) ∧
      Z.land (Z.shiftr p 16) 255 = 0 ∧
      Z.land (Z.shiftr p 8) 255 =
        Z.lor (byte_val (g rgb)) (byte_val (r rgb)) ∧
      Z.land p 255 = 0) ∧
  (∀ host_le r0 g0 b0,
      video_rgb_to_pixel32 host_le VIDEO_BGRX8888
        {| r := r0; g := g0; b := b0 |} =
      video_rgb_to_pixel32 host_le VIDEO_BGRX8888
        {| r := g0; g := r0; b := b0 |}).
Proof.
  split.
  - intros rgb p. subst p. unfold video_rgb_to_pixel32, cpu_to_le32.
    rewrite bgrx_layout.
    pose proof (byte_val_range (b rgb)) as Hb.
    pose proof (IntFacts.lor_range (byte_val (g rgb)) (byte_val (r rgb)) 8)
      as Hgr.
    pose proof (byte_val_range (r rgb)) as Hr.
    pose proof (byte_val_range (g rgb)) as Hg.
    specialize (Hgr ltac:(lia) Hg Hr).
    rewrite IntFacts.u32_small by lia.
    set (gr := Z.lor (byte_val (g rgb)) (byte_val (r rgb))) in *.
    split; [byte_arith |]. split; [byte_arith |]. split; byte_arith.
  - intros host_le r0 g0 b0. unfold video_rgb_to_pixel32.
    rewrite !bgrx_layout. cbn [r g b]. now rewrite Z.lor_comm.
Qed.

Lemma rgba_layout host_le rgb :
  pixel32_layout host_le VIDEO_RGBA8888 rgb =
  byte_val (r rgb) * 2 ^ 24 +
  (byte_val (g rgb) * 2 ^ 16 + (byte_val (b rgb) * 2 ^ 8 + 255)).
Proof.
  unfold pixel32_layout. cbv beta iota zeta.
  pose proof (byte_val_range (r rgb)) as Hr.
  pose proof (byte_val_range (g rgb)) as Hg.
  pose proof (byte_val_range (b rgb)) as Hb.
  rewrite <- !Z.lor_assoc.
  rewrite (IntFacts.lor_shiftl_low (byte_val (b rgb)) 255 8) by lia.
  rewrite (IntFacts.lor_shiftl_low (byte_val (g rgb)) _ 16) by lia.
  rewrite IntFacts.lor_shiftl_low by lia.
  apply IntFacts.u32_small. lia.
Qed.

(** X6. RGBA8888 on a little-endian host puts red, green and blue in the
    three upper bytes, from which they can be read back, and always sets
    the alpha byte to 0xff. *)
Theorem rgba8888_fields rgb :
  let p := video_rgb_to_pixel32 true VIDEO_RGBA8888 rgb in
  Z.shiftr p 24 = byte_val (r rgb) ∧
  Z.land (Z.shiftr p 16) 255 = byte_val (g rgb) ∧
  Z.land (Z.shiftr p 8) 255 = byte_val (b rgb) ∧
  Z.land p 255 = 255.
Proof.
  intros p. subst p. unfold video_rgb_to_pixel32, cpu_to_le32.
  rewrite rgba_layout.
  pose proof (byte_val_range (r rgb)) as Hr.
  pose proof (byte_val_range (g rgb)) as Hg.
  pose proof (byte_val_range (b rgb)) as Hb.
  rewrite IntFacts.u32_small by lia.
  split; [byte_arith |]. split; [byte_arith |]. split; byte_arith.
Qed.

Lemma xrgb2101010_layout host_le format rgb :
  format = VIDEO_XRGB2101010 ∨ format = VIDEO_XRGB2101010_BE →
  pixel32_layout host_le format rgb =
  byte_val (r rgb) * 2 ^ 22 +
  (byte_val (g rgb) * 2 ^ 12 + byte_val (b rgb) * 2 ^ 2).
Proof.
  intros Hf.
  pose proof (byte_val_range (r rgb)) as Hr.
  pose proof (byte_val_range (g rgb)) as Hg.
  pose proof (byte_val_range (b rgb)) as Hb.
  assert (Hval :
    u32 (Z.lor (Z.lor (Z.shiftl (byte_val (r rgb)) 22)
                  (Z.shiftl (byte_val (g rgb)) 12))
           (Z.shiftl (byte_val (b rgb)) 2)) =
    byte_val (r rgb) * 2 ^ 22 +
    (byte_val (g rgb) * 2 ^ 12 + byte_val (b rgb) * 2 ^ 2)).
  { rewrite <- Z.lor_assoc.
    rewrite (Z.shiftl_mul_pow2 (byte_val (b rgb)) 2) by lia.
    rewrite (IntFacts.lor_shiftl_low (byte_val (g rgb)) _ 12) by lia.
    rewrite IntFacts.lor_shiftl_low by lia.
    apply IntFacts.u32_small. lia. }
  destruct Hf as [-> | ->]; exact Hval.
Qed.

(** X7. XRGB2101010 on a little-endian host widens each 8-bit component
    to its 10-bit field by two zero low bits: bits 20..29, 10..19 and 0..9
    hold four times red, green and blue, and the top two bits are
    clear. *)
Theorem xrgb2101010_fields rgb :
  let p := video_rgb_to_pixel32 true VIDEO_XRGB2101010 rgb in
  0 ≤ p < 2 ^ 30 ∧
  Z.land (Z.shiftr p 20) 1023 = 4 * byte_val (r rgb) ∧
  Z.land (Z.shiftr p 10) 1023 = 4 * byte_val (g rgb) ∧
  Z.land p 1023 = 4 * byte_val (b rgb).
Proof.
  intros p. subst p. unfold video_rgb_to_pixel32, cpu_to_le32.
  rewrite xrgb2101010_layout by auto.
  pose proof (byte_val_range (r rgb)) as Hr.
  pose proof (byte_val_range (g rgb)) as Hg.
  pose proof (byte_val_range (b rgb)) as Hb.
  rewrite IntFacts.u32_small by lia.
  split; [lia |]. split; [byte_arith |]. split; byte_arith.
Qed.

(** X8. For every format other than VIDEO_DEFAULT, what
    [video_rgb_to_pixel32] leaves in memory is the same on a little-endian
    and on a big-endian host: the layout word stored high byte first for
    XRGB2101010_BE and low byte first for the rest. *)
Theorem pixel32_memory_host_independent format rgb :
  format ≠ VIDEO_DEFAULT →
  stored true 4 (video_rgb_to_pixel32 true format rgb) =
  stored false 4 (video_rgb_to_pixel32 false format rgb) ∧
  stored true 4 (video_rgb_to_pixel32 true format rgb) =
  match format with
  | VIDEO_XRGB2101010_BE => rev (le_bytes 4 (pixel32_layout true format rgb))
  | _ => le_bytes 4 (pixel32_layout true format rgb)
  end.
Proof.
  intros Hf.
  assert (Hmem : ∀ h,
    stored h 4 (video_rgb_to_pixel32 h format rgb) =
    match format with
    | VIDEO_XRGB2101010_BE =>
        rev (le_bytes 4 (pixel32_layout true format rgb))
    | _ => le_bytes 4 (pixel32_layout true format rgb)
    end).
  { intros h. unfold video_rgb_to_pixel32, cpu_to_le32, cpu_to_be32, u32.
    change (2 ^ 32) with (256 ^ Z.of_nat 4).
    destruct format; try contradiction;
      change (pixel32_layout h ?f rgb) with (pixel32_layout true f rgb);
      first [apply IntFacts.stored_le | apply IntFacts.stored_be]. }
  split; [now rewrite !Hmem | apply Hmem].
Qed.

Lemma pixel32_memory_host_independent_witness :
  let rgb := {| r := Byte.x12; g := Byte.x34; b := Byte.x56 |} in
  stored true 4 (video_rgb_to_pixel32 true VIDEO_XRGB8888 rgb) =
  stored false 4 (video_rgb_to_pixel32 false VIDEO_XRGB8888 rgb) ∧
  stored true 4 (video_rgb_to_pixel32 true VIDEO_XRGB8888 rgb) =
  le_bytes 4 (pixel32_layout true VIDEO_XRGB8888 rgb).
Proof.
  intros rgb.
  apply (pixel32_memory_host_independent VIDEO_XRGB8888 rgb). discriminate.
Defined.

End VideoFormatSpec.

(** ** Properties of the driver *)

Module VirtioGpuSpec.
Import Int VirtioGpu.

(** *** Byte order *)

Lemma virtio32_roundtrip dev x :
  virtio32_to_cpu dev (cpu_to_virtio32 dev x) = u32 x.
Proof.
  unfold virtio32_to_cpu, cpu_to_virtio32, cpu_to_le32, cpu_to_be32.
  destruct (virtio_is_little_endian dev), (host_le dev);
    try apply IntFacts.bswap_bswap;
    unfold u32; now rewrite Z.mod_mod by lia.
Qed.

Lemma virtio64_roundtrip dev x :
  virtio64_to_cpu dev (cpu_to_virtio64 dev x) = u64 x.
Proof.
  unfold virtio64_to_cpu, cpu_to_virtio64, cpu_to_le64, cpu_to_be64.
  destruct (virtio_is_little_endian dev), (host_le dev);
    try apply IntFacts.bswap_bswap;
    unfold u64; now rewrite Z.mod_mod by lia.
Qed.

Lemma fence_flag_nonzero dev :
  cpu_to_virtio32 dev VIRTIO_GPU_FLAG_FENCE ≠ 0.
Proof.
  unfold cpu_to_virtio32, cpu_to_le32, cpu_to_be32.
  destruct (virtio_is_little_endian dev), (host_le dev); now vm_compute.
Qed.

Lemma is_cmd_unfenced dev t t' body isz osz :
  is_cmd dev t (unfenced_request dev t' body isz osz) =
  (ctrl_code t' =? ctrl_code t).
Proof.
  unfold is_cmd, unfenced_request. cbn [rq_hdr hdr_type].
  rewrite virtio32_roundtrip, IntFacts.u32_small; [reflexivity |].
  destruct t'; vm_compute; split; congruence.
Qed.

Lemma is_cmd_fenced dev t t' f body isz osz :
  is_cmd dev t (fenced_request dev t' f body isz osz) =
  (ctrl_code t' =? ctrl_code t).
Proof.
  unfold is_cmd, fenced_request. cbn [rq_hdr hdr_type].
  rewrite virtio32_roundtrip, IntFacts.u32_small; [reflexivity |].
  destruct t'; vm_compute; split; congruence.
Qed.

(** *** The transport adapter *)

Lemma do_req_eq dev t body isz out osz flush w :
  virtio_gpu_do_req dev t body isz out osz flush w =
  let rq := sent_request dev t body isz osz flush w in
  let w1 := after_request flush rq w in
  match dev_reply dev (w_trace w ++ [rq]) with
  | AddFails errno => Ret (- Z.pos errno, out) w1
  | NeverCompletes => Hang w1
  | Completes len resp =>
      Ret (to_int (virtio32_to_cpu dev (hdr_type (resp_hdr resp))), resp) w1
  end.
Proof. destruct flush; reflexivity. Qed.

Lemma do_req_world dev t body isz out osz flush w :
  world_of (virtio_gpu_do_req dev t body isz out osz flush w) =
  after_request flush (sent_request dev t body isz osz flush w) w.
Proof.
  rewrite do_req_eq. cbv zeta.
  now destruct (dev_reply dev _).
Qed.

Lemma do_req_never_out_of_fuel dev t body isz out osz flush w w' :
  virtio_gpu_do_req dev t body isz out osz flush w ≠ OutOfFuel w'.
Proof.
  rewrite do_req_eq. cbv zeta. now destruct (dev_reply dev _).
Qed.

(** C1. When the in-progress flag of the instance is set,
    [virtio_gpu_video_sync] returns 0 at once: the world it returns is the
    one it was called in, so nothing was placed on the queue and no field
    of the device state changed. *)
Theorem video_sync_reentrant dev w :
  in_sync (w_priv w) = true →
  virtio_gpu_video_sync dev w = Ret 0 w.
Proof.
  intros H. unfold virtio_gpu_video_sync. now rewrite H.
Qed.

Lemma video_sync_reentrant_witness :
  let w := set_priv (set_in_sync true (w_priv reserved_world))
             reserved_world in
  in_sync (w_priv w) = true ∧
  virtio_gpu_video_sync (sample_dev [1] 0 0) w = Ret 0 w.
Proof.
  split; [reflexivity |].
  apply (video_sync_reentrant (sample_dev [1] 0 0)). reflexivity.
Defined.

(** C8. When an exchange completes with a used length that differs from
    the expected response size, [virtio_gpu_do_req] still returns: the
    value is the response type decoded from the response header, and the
    response buffer is handed back as the device filled it. *)
Theorem do_req_length_mismatch dev t body isz out osz flush w len resp :
  dev_reply dev
    (w_trace (world_of (virtio_gpu_do_req dev t body isz out osz flush w))) =
  Completes len resp →
  len ≠ osz →
  ∃ w',
    virtio_gpu_do_req dev t body isz out osz flush w =
    Ret (to_int (virtio32_to_cpu dev (hdr_type (resp_hdr resp))), resp) w'.
Proof.
  intros Hreply _.
  rewrite do_req_world in Hreply.
  rewrite do_req_eq. cbv zeta.
  unfold after_request in Hreply. cbn [push_request w_trace] in Hreply.
  assert (Htrace : ∀ p, w_trace (if flush then set_priv p w else w) = w_trace w)
    by (intros p; now destruct flush).
  rewrite Htrace in Hreply. rewrite Hreply. eauto.
Qed.

Lemma do_req_length_mismatch_witness :
  ∃ w',
    virtio_gpu_do_req terse_dev VIRTIO_GPU_CMD_RESOURCE_FLUSH BodyNone 24
      (no_data 0) 24 true initial_world =
    Ret (VIRTIO_GPU_RESP_OK_NODATA, no_data VIRTIO_GPU_RESP_OK_NODATA) w'.
Proof.
  apply (do_req_length_mismatch terse_dev VIRTIO_GPU_CMD_RESOURCE_FLUSH
           BodyNone 24 (no_data 0) 24 true initial_world 0
           (no_data VIRTIO_GPU_RESP_OK_NODATA)).
  - reflexivity.
  - discriminate.
Defined.

(** *** Sequences of calls to the transport adapter *)

Lemma world_of_bind_ret {A B : Type} (m : result A) (f : A → B) :
  world_of (bind m (fun a w => Ret (f a) w)) = world_of m.
Proof. now destruct m. Qed.

(** A call either hangs in the world it reached, or the rest of the
    sequence runs from that world. *)
Lemma do_reqs_cons dev c cs out w :
  let w1 := after_request (c_flush c)
              (sent_request dev (c_type c) (c_body c) (c_in_size c)
                 (c_out_size c) (c_flush c) w) w in
  world_of (do_reqs dev (c :: cs) out w) = w1 ∨
  ∃ out', world_of (do_reqs dev (c :: cs) out w) =
          world_of (do_reqs dev cs out' w1).
Proof.
  intros w1. cbn [do_reqs]. rewrite do_req_eq. cbv zeta. fold w1.
  destruct (dev_reply dev _) as [errno | len resp |]; cbn [bind].
  - right. exists out. apply world_of_bind_ret.
  - right. exists resp. apply world_of_bind_ret.
  - now left.
Qed.

Lemma sent_request_matches dev c w :
  request_matches dev c
    (sent_request dev (c_type c) (c_body c) (c_in_size c) (c_out_size c)
       (c_flush c) w).
Proof.
  unfold request_matches, sent_request.
  destruct (c_flush c); [| now split].
  unfold fenced, fenced_request. cbn [rq_hdr hdr_flags].
  pose proof (fence_flag_nonzero dev) as Hne.
  now destruct (Z.eqb_spec (cpu_to_virtio32 dev VIRTIO_GPU_FLAG_FENCE) 0).
Qed.

Lemma fence_run dev cs : ∀ out w,
  0 ≤ fence_id (w_priv w) →
  fence_id (w_priv w) + Z.of_nat (length (List.filter c_flush cs)) ≤ 2 ^ 64 →
  ∃ sent,
    w_trace (world_of (do_reqs dev cs out w)) = w_trace w ++ sent ∧
    Forall2 (request_matches dev) (take (length sent) cs) sent ∧
    Forall (fun v => fence_id (w_priv w) ≤ v <
                     fence_id (w_priv w) +
                     Z.of_nat (length (List.filter c_flush cs)))
      (map (fence_of dev) (List.filter fenced sent)) ∧
    StronglySorted Z.lt (map (fence_of dev) (List.filter fenced sent)).
Proof.
  induction cs as [| c cs IH]; intros out w Hpos Hroom.
  - exists []. cbn. rewrite app_nil_r. repeat split; constructor.
  - set (rq := sent_request dev (c_type c) (c_body c) (c_in_size c)
                 (c_out_size c) (c_flush c) w).
    set (w1 := after_request (c_flush c) rq w).
    assert (Htr : w_trace w1 = w_trace w ++ [rq]).
    { unfold w1, after_request. cbn [push_request w_trace].
      now destruct (c_flush c). }
    pose proof (sent_request_matches dev c w) as Hrq. fold rq in Hrq.
    cbn [List.filter] in Hroom |- *.
    destruct (c_flush c) eqn:Hflush.
    + (* a fenced call takes the counter and advances it *)
      cbn [length] in Hroom |- *. rewrite Nat2Z.inj_succ in Hroom.
      assert (Hfen : fenced rq = true)
        by (unfold request_matches in Hrq; now rewrite Hflush in Hrq).
      assert (Hid : fence_of dev rq = fence_id (w_priv w)).
      { unfold rq, sent_request, fence_of, fenced_request.
        cbn [rq_hdr hdr_fence_id].
        rewrite virtio64_roundtrip. apply IntFacts.u64_small. lia. }
      assert (Hnext : fence_id (w_priv w1) = u64 (fence_id (w_priv w) + 1))
        by reflexivity.
      assert (Hstep : ∀ l,
        Forall (fun v => fence_id (w_priv w1) ≤ v <
                  fence_id (w_priv w1) +
                  Z.of_nat (length (List.filter c_flush cs))) l →
        Forall (fun v => fence_id (w_priv w) < v <
                  fence_id (w_priv w) +
                  Z.succ (Z.of_nat (length (List.filter c_flush cs)))) l).
      { intros l Hl. eapply Forall_impl; [exact Hl |].
        intros v Hv. cbn beta in Hv. rewrite Hnext in Hv.
        destruct (Z.eq_dec (fence_id (w_priv w) + 1) (2 ^ 64)) as [Hw | Hw].
        - rewrite Hw in Hv. change (u64 (2 ^ 64)) with 0 in Hv. lia.
        - rewrite IntFacts.u64_small in Hv by lia. lia. }
      assert (Hpos1 : 0 ≤ fence_id (w_priv w1)).
      { rewrite Hnext. unfold u64. apply Z.mod_pos_bound. lia. }
      assert (Hroom1 : fence_id (w_priv w1) +
                       Z.of_nat (length (List.filter c_flush cs)) ≤ 2 ^ 64).
      { rewrite Hnext.
        destruct (Z.eq_dec (fence_id (w_priv w) + 1) (2 ^ 64)) as [Hw | Hw].
        - rewrite Hw. change (u64 (2 ^ 64)) with 0. lia.
        - rewrite IntFacts.u64_small by lia. lia. }
      rewrite Nat2Z.inj_succ.
      destruct (do_reqs_cons dev c cs out w) as [Hw | [out' Hw]];
        rewrite Hflush in Hw; fold rq w1 in Hw; rewrite Hw.
      * exists [rq]. rewrite Htr. cbn [length take List.filter map].
        rewrite Hfen. cbn [map].
        split; [reflexivity |].
        split; [constructor; [exact Hrq | constructor] |].
        split; [constructor; [lia | constructor] |].
        repeat constructor.
      * destruct (IH out' w1 Hpos1 Hroom1) as (sent & Hs & Hm & Hb & Hsorted).
        exists (rq :: sent). rewrite Hs, Htr, <- app_assoc.
        cbn [length take List.filter map]. rewrite Hfen. cbn [map].
        split; [reflexivity |].
        split; [constructor; [exact Hrq | exact Hm] |].
        apply Hstep in Hb.
        split.
        -- constructor; [lia |].
           eapply Forall_impl; [exact Hb |]. intros v Hv. cbn beta in Hv. lia.
        -- constructor; [exact Hsorted |].
           rewrite Hid. eapply Forall_impl; [exact Hb |].
           intros v Hv. cbn beta in Hv. lia.
    + (* an unfenced call leaves the counter alone *)
      assert (Hfen : fenced rq = false).
      { unfold request_matches in Hrq. rewrite Hflush in Hrq.
        unfold fenced. destruct Hrq as [-> _]. reflexivity. }
      assert (Hnext : fence_id (w_priv w1) = fence_id (w_priv w))
        by reflexivity.
      destruct (do_reqs_cons dev c cs out w) as [Hw | [out' Hw]];
        rewrite Hflush in Hw; fold rq w1 in Hw; rewrite Hw.
      * exists [rq]. rewrite Htr. cbn [length take List.filter map].
        rewrite Hfen. cbn [map].
        split; [reflexivity |].
        split; [constructor; [exact Hrq | constructor] |].
        split; constructor.
      * rewrite <- Hnext in Hpos, Hroom.
        destruct (IH out' w1 Hpos Hroom) as (sent & Hs & Hm & Hb & Hsorted).
        exists (rq :: sent). rewrite Hs, Htr, <- app_assoc.
        cbn [length take List.filter map]. rewrite Hfen.
        split; [reflexivity |].
        split; [constructor; [exact Hrq | exact Hm] |].
        rewrite <- Hnext. now split.
Qed.

(** C2. Over any sequence of calls to [virtio_gpu_do_req] on one
    instance during which the 64-bit fence counter does not wrap, the
    requests placed on the queue match the calls one for one (up to the
    call that hangs, if one does): a call without fence sends flags 0 and
    fence id 0, a call with fence sends a request with the fence flag, and
    the fence ids of the fenced requests, decoded from the wire, strictly
    increase. *)
Theorem fence_ids_strictly_increase dev cs out w :
  0 ≤ fence_id (w_priv w) →
  fence_id (w_priv w) + Z.of_nat (length (List.filter c_flush cs)) ≤ 2 ^ 64 →
  ∃ sent,
    w_trace (world_of (do_reqs dev cs out w)) = w_trace w ++ sent ∧
    Forall2 (request_matches dev) (take (length sent) cs) sent ∧
    StronglySorted Z.lt (map (fence_of dev) (List.filter fenced sent)).
Proof.
  intros Hpos Hroom.
  destruct (fence_run dev cs out w Hpos Hroom) as (sent & Hs & Hm & _ & Hsorted).
  now exists sent.
Qed.

Lemma fence_ids_strictly_increase_witness :
  let req t flush :=
    {| c_type := t; c_body := BodyNone; c_in_size := 24; c_out_size := 24;
       c_flush := flush |} in
  let cs := [ req VIRTIO_GPU_CMD_TRANSFER_TO_HOST_2D true;
              req VIRTIO_GPU_CMD_SET_SCANOUT false;
              req VIRTIO_GPU_CMD_RESOURCE_FLUSH true ] in
  ∃ sent,
    w_trace (world_of (do_reqs terse_dev cs (no_data 0) initial_world)) =
    w_trace initial_world ++ sent ∧
    Forall2 (request_matches terse_dev) (take (length sent) cs) sent ∧
    StronglySorted Z.lt (map (fence_of terse_dev) (List.filter fenced sent)).
Proof.
  intros req cs.
  apply (fence_ids_strictly_increase terse_dev cs (no_data 0) initial_world).
  - cbn. lia.
  - cbn. lia.
Defined.

(** The hypothesis on the counter cannot be dropped: it is a 64-bit
    counter, and at 2^64 - 1 the next fenced request gets fence id 0. *)
Remark fence_counter_wraps :
  let w := set_priv (set_fence_id (2 ^ 64 - 1) (w_priv initial_world))
             initial_world in
  let fenced_call :=
    {| c_type := VIRTIO_GPU_CMD_RESOURCE_FLUSH; c_body := BodyNone;
       c_in_size := 24; c_out_size := 24; c_flush := true |} in
  map (fence_of terse_dev)
    (w_trace (world_of (do_reqs terse_dev [fenced_call; fenced_call]
                          (no_data 0) w))) =
  [2 ^ 64 - 1; 0].
Proof. vm_compute. reflexivity. Qed.

(** *** Bit masks *)

Lemma indices_from_head (P : nat → bool) (n : nat) : ∀ a k rest,
  indices_from P a n = k :: rest →
  (a ≤ k < a + n)%nat ∧ P k = true ∧
  (∀ j, (a ≤ j < k)%nat → P j = false).
Proof.
  induction n as [| n IH]; intros a k rest H; [discriminate |].
  cbn [indices_from] in H. destruct (P a) eqn:Ha.
  - injection H as <- _.
    split; [lia |]. split; [exact Ha |]. intros j Hj. lia.
  - destruct (IH _ _ _ H) as (Hk & HP & Hlow).
    split; [lia |]. split; [exact HP |].
    intros j Hj. destruct (Nat.eq_dec j a) as [-> | Hne]; [exact Ha |].
    apply Hlow. lia.
Qed.

Lemma indices_from_ext (P Q : nat → bool) (n : nat) : ∀ a,
  (∀ j, (a ≤ j < a + n)%nat → P j = Q j) →
  indices_from P a n = indices_from Q a n.
Proof.
  induction n as [| n IH]; intros a H; [reflexivity |].
  cbn [indices_from]. rewrite (H a) by lia. f_equal.
  apply IH. intros j Hj. apply H. lia.
Qed.

Lemma indices_from_none (P : nat → bool) (n : nat) : ∀ a,
  (∀ j, (a ≤ j < a + n)%nat → P j = false) → indices_from P a n = [].
Proof.
  induction n as [| n IH]; intros a H; [reflexivity |].
  cbn [indices_from]. rewrite (H a) by lia. cbn [app].
  apply IH. intros j Hj. apply H. lia.
Qed.

Lemma in_indices_from (P : nat → bool) (n : nat) : ∀ a j,
  In j (indices_from P a n) ↔ (a ≤ j < a + n)%nat ∧ P j = true.
Proof.
  induction n as [| n IH]; intros a j; cbn [indices_from].
  - cbn [In]. split; [intros [] | lia].
  - rewrite in_app_iff, IH. destruct (P a) eqn:Ha; cbn [In].
    + split.
      * intros [[<- | []] | [H1 H2]]; (split; [lia | assumption]).
      * intros [H1 H2]. destruct (Nat.eq_dec a j); [left; now left |].
        right. split; [lia | exact H2].
    + split.
      * intros [[] | [H1 H2]]. split; [lia | exact H2].
      * intros [H1 H2]. right. split; [| exact H2].
        destruct (Nat.eq_dec a j) as [-> |]; [congruence | lia].
Qed.

Lemma indices_from_app (P : nat → bool) (n m : nat) : ∀ a,
  indices_from P a (n + m) = indices_from P a n ++ indices_from P (a + n) m.
Proof.
  induction n as [| n IH]; intros a.
  - cbn [indices_from Nat.add app]. now rewrite Nat.add_0_r.
  - cbn [indices_from Nat.add]. rewrite IH, <- app_assoc.
    now rewrite Nat.add_succ_r.
Qed.

Lemma indices_from_length (P : nat → bool) (n : nat) : ∀ a,
  (length (indices_from P a n) ≤ n)%nat.
Proof.
  induction n as [| n IH]; intros a; cbn [indices_from]; [cbn; lia |].
  rewrite length_app. specialize (IH (S a)).
  destruct (P a); cbn [length]; lia.
Qed.

(** Dropping the first index found leaves the other indices. *)
Lemma indices_from_drop (P Q : nat → bool) (n : nat) : ∀ a k rest,
  indices_from P a n = k :: rest →
  (∀ j, Q j = P j && negb (j =? k)%nat) →
  indices_from Q a n = rest.
Proof.
  induction n as [| n IH]; intros a k rest H HQ; [discriminate |].
  cbn [indices_from] in H |- *. rewrite (HQ a).
  destruct (P a) eqn:Ha.
  - injection H as <- <-. rewrite Nat.eqb_refl. cbn [andb negb app].
    apply indices_from_ext. intros j Hj. rewrite HQ.
    destruct (Nat.eqb_spec j a); [lia |]. apply andb_true_r.
  - cbn [andb app] in H |- *. now apply (IH _ k).
Qed.

Lemma u32_fixed_high mask j :
  u32 mask = mask → 32 ≤ j → Z.testbit mask j = false.
Proof.
  intros H Hj. rewrite <- H, IntFacts.testbit_u32.
  destruct (Z.ltb_spec j 32); [lia | reflexivity].
Qed.

Lemma mask_bits_nil mask :
  u32 mask = mask → mask_bits mask = [] → mask = 0.
Proof.
  intros Hfix Hnil. apply Z.bits_inj'. intros j Hj. rewrite Z.bits_0.
  destruct (Z.lt_ge_cases j 32) as [Hlt | Hge].
  - assert (Hin : In (Z.to_nat j) (mask_bits mask) → False)
      by (rewrite Hnil; intros []).
    destruct (Z.testbit mask j) eqn:Hbit; [| reflexivity].
    exfalso. apply Hin. unfold mask_bits. apply in_indices_from. split.
    + lia.
    + now rewrite Z2Nat.id.
  - now apply u32_fixed_high.
Qed.

Lemma ffs_from_lowest n : ∀ i x k,
  0 ≤ i → i ≤ k < i + Z.of_nat n →
  Z.testbit x k = true →
  (∀ j, i ≤ j < k → Z.testbit x j = false) →
  ffs_from n i x = k + 1.
Proof.
  induction n as [| n IH]; intros i x k Hi Hk Hbit Hlow; [lia |].
  cbn [ffs_from].
  destruct (Z.eq_dec i k) as [-> | Hne].
  - now rewrite Hbit.
  - rewrite (Hlow i) by lia. apply IH; try lia; [exact Hbit |].
    intros j Hj. apply Hlow. lia.
Qed.

(** Clearing bit [k] of a 32-bit mask the way the driver does. *)
Lemma testbit_clear mask k j :
  0 ≤ k → 0 ≤ j →
  Z.testbit (Z.land mask (u32 (Z.lnot (Z.shiftl 1 k)))) j =
  Z.testbit mask j && ((j <? 32) && negb (k =? j)).
Proof.
  intros Hk Hj.
  rewrite Z.land_spec, IntFacts.testbit_u32, Z.lnot_spec by lia.
  now rewrite Z.shiftl_1_l, Z.pow2_bits_eqb by lia.
Qed.

Lemma clear_u32_fixed mask k :
  0 ≤ k →
  u32 (Z.land mask (u32 (Z.lnot (Z.shiftl 1 k)))) =
  Z.land mask (u32 (Z.lnot (Z.shiftl 1 k))).
Proof.
  intros Hk. apply Z.bits_inj'. intros j Hj.
  rewrite IntFacts.testbit_u32, testbit_clear by lia.
  destruct (j <? 32), (Z.testbit mask j); reflexivity.
Qed.

(** The lowest set bit is what [ffs] finds, and clearing it leaves the
    other set bits. *)
Lemma mask_bits_step mask k rest :
  u32 mask = mask → mask_bits mask = k :: rest →
  u32 (ffs mask - 1) = Z.of_nat k ∧
  mask_bits (Z.land mask (u32 (Z.lnot (Z.shiftl 1 (Z.of_nat k))))) = rest.
Proof.
  intros Hfix Hbits. unfold mask_bits in Hbits.
  destruct (indices_from_head _ _ _ _ _ Hbits) as (Hk & Hbit & Hlow).
  split.
  - unfold ffs.
    rewrite (ffs_from_lowest 32 0 mask (Z.of_nat k)); try lia.
    + rewrite Z.add_simpl_r. apply IntFacts.u32_small. lia.
    + exact Hbit.
    + intros j Hj. specialize (Hlow (Z.to_nat j)).
      rewrite Z2Nat.id in Hlow by lia. apply Hlow. lia.
  - unfold mask_bits. eapply indices_from_drop; [exact Hbits |].
    intros j. cbn beta. rewrite testbit_clear by lia.
    destruct (Z.ltb_spec (Z.of_nat j) 32) as [Hlt | Hge].
    + cbn [andb]. f_equal. f_equal.
      destruct (Z.eqb_spec (Z.of_nat k) (Z.of_nat j)),
        (Nat.eqb_spec j k); (reflexivity || lia).
    + rewrite (u32_fixed_high mask) by (exact Hfix || lia). reflexivity.
Qed.

Lemma mask_bits_length mask : (length (mask_bits mask) ≤ 32)%nat.
Proof. apply indices_from_length. Qed.

(** The mask built from the display info has exactly the bits of the
    enabled scanouts. *)
Lemma build_scanout_mask_fold pmodes l : ∀ m,
  u32 m = m → Forall (fun i => (i < 32)%nat) l →
  let m' :=
    fold_left
      (fun scanout_mask i =>
         if scanout_enabled pmodes i
         then u32 (Z.lor scanout_mask (Z.shiftl 1 (Z.of_nat i)))
         else scanout_mask) l m in
  u32 m' = m' ∧
  ∀ j : nat, Z.testbit m' (Z.of_nat j) = true ↔
             Z.testbit m (Z.of_nat j) = true ∨
             (In j l ∧ scanout_enabled pmodes j = true).
Proof.
  induction l as [| a l IH]; intros m Hm Hl; cbn [fold_left].
  - split; [exact Hm |]. intros j. split; [now left | now intros [H | [[] _]]].
  - inversion Hl as [| ? ? Ha Hl']; subst.
    set (m1 := if scanout_enabled pmodes a
               then u32 (Z.lor m (Z.shiftl 1 (Z.of_nat a))) else m).
    assert (Hm1 : u32 m1 = m1).
    { unfold m1. destruct (scanout_enabled pmodes a); [| exact Hm].
      unfold u32. apply Z.mod_mod. lia. }
    assert (Hbit : ∀ j : nat, Z.testbit m1 (Z.of_nat j) = true ↔
               Z.testbit m (Z.of_nat j) = true ∨
               (a = j ∧ scanout_enabled pmodes j = true)).
    { intros j. unfold m1. destruct (scanout_enabled pmodes a) eqn:Hen.
      - rewrite IntFacts.testbit_u32, Z.lor_spec, Z.shiftl_1_l,
          Z.pow2_bits_eqb by lia.
        destruct (Z.ltb_spec (Z.of_nat j) 32) as [Hlt | Hge].
        + cbn [andb]. rewrite orb_true_iff, Z.eqb_eq.
          split.
          * intros [H | H]; [now left |].
            right. split; [lia |]. now replace j with a by lia.
          * intros [H | [H _]]; [now left | right; lia].
        + rewrite (u32_fixed_high m) by (exact Hm || lia).
          cbn [andb]. split; [discriminate |].
          intros [H | [H _]]; [discriminate | lia].
      - split; [now left |]. intros [H | [-> H]]; [exact H | congruence]. }
    destruct (IH m1 Hm1 Hl') as (Hfix & Hiff).
    split; [exact Hfix |]. intros j. rewrite Hiff, Hbit. cbn [In]. tauto.
Qed.

Lemma build_scanout_mask_fixed pmodes :
  u32 (build_scanout_mask pmodes) = build_scanout_mask pmodes.
Proof.
  apply (build_scanout_mask_fold pmodes (seq 0 VIRTIO_GPU_MAX_SCANOUTS) 0).
  - reflexivity.
  - apply Forall_forall. intros i Hi. apply list_elem_of_In, List.in_seq in Hi.
    unfold VIRTIO_GPU_MAX_SCANOUTS in Hi. lia.
Qed.

Lemma build_scanout_mask_bit pmodes (j : nat) :
  Z.testbit (build_scanout_mask pmodes) (Z.of_nat j) =
  (j <? VIRTIO_GPU_MAX_SCANOUTS)%nat && scanout_enabled pmodes j.
Proof.
  apply eq_true_iff_eq.
  destruct (build_scanout_mask_fold pmodes (seq 0 VIRTIO_GPU_MAX_SCANOUTS) 0)
    as (_ & Hiff).
  - reflexivity.
  - apply Forall_forall. intros i Hi. apply list_elem_of_In, List.in_seq in Hi.
    unfold VIRTIO_GPU_MAX_SCANOUTS in Hi. lia.
  - unfold build_scanout_mask. rewrite Hiff, Z.bits_0, List.in_seq.
    rewrite andb_true_iff, Nat.ltb_lt. split.
    + intros [H | [H1 H2]]; [discriminate |]. split; [lia | exact H2].
    + intros [H1 H2]. right. split; [lia | exact H2].
Qed.

Lemma mask_bits_build pmodes :
  mask_bits (build_scanout_mask pmodes) = enabled_scanouts pmodes.
Proof.
  unfold mask_bits, enabled_scanouts.
  rewrite (indices_from_app _ VIRTIO_GPU_MAX_SCANOUTS 16 0).
  rewrite (indices_from_none _ 16 (0 + VIRTIO_GPU_MAX_SCANOUTS)), app_nil_r.
  - apply indices_from_ext. intros j Hj.
    rewrite build_scanout_mask_bit.
    destruct (Nat.ltb_spec j VIRTIO_GPU_MAX_SCANOUTS); [reflexivity | lia].
  - intros j Hj. rewrite build_scanout_mask_bit.
    destruct (Nat.ltb_spec j VIRTIO_GPU_MAX_SCANOUTS) as [Hlt | Hge];
      [| reflexivity].
    unfold VIRTIO_GPU_MAX_SCANOUTS in *. lia.
Qed.

Lemma build_scanout_mask_none pmodes :
  enabled_scanouts pmodes = [] → build_scanout_mask pmodes = 0.
Proof.
  intros H. apply mask_bits_nil.
  - apply build_scanout_mask_fixed.
  - now rewrite mask_bits_build.
Qed.

Lemma build_scanout_mask_some pmodes :
  enabled_scanouts pmodes ≠ [] → build_scanout_mask pmodes ≠ 0.
Proof.
  intros H Hz. apply H. rewrite <- mask_bits_build, Hz. reflexivity.
Qed.

(** *** Bring-up on a device that answers as expected *)

Lemma accepts_app dev reqs1 reqs2 : ∀ hist,
  accepts dev hist (reqs1 ++ reqs2) ↔
  accepts dev hist reqs1 ∧ accepts dev (hist ++ reqs1) reqs2.
Proof.
  induction reqs1 as [| rq reqs1 IH]; intros hist; cbn [accepts app].
  - rewrite app_nil_r. tauto.
  - rewrite IH, <- app_assoc. cbn [app]. tauto.
Qed.

(** A device that always answers OK_NODATA accepts every sequence
    without a GET_DISPLAY_INFO request. *)
Lemma answers_accepts dev reqs :
  answers_ok_nodata dev →
  Forall (fun rq => is_cmd dev VIRTIO_GPU_CMD_GET_DISPLAY_INFO rq = false)
    reqs →
  ∀ hist, accepts dev hist reqs.
Proof.
  intros Hdev Hall.
  induction Hall as [| rq reqs Hrq _ IH]; intros hist; cbn [accepts];
    [exact I |].
  split; [now apply Hdev | apply IH].
Qed.

(** One exchange the device accepts. *)
Lemma do_req_accepted dev t body isz out osz flush w rq :
  sent_request dev t body isz osz flush w = rq →
  (∃ len out',
      dev_reply dev (w_trace w ++ [rq]) = Completes len out' ∧
      to_int (virtio32_to_cpu dev (hdr_type (resp_hdr out'))) =
      VIRTIO_GPU_RESP_OK_NODATA) →
  ∃ out',
    virtio_gpu_do_req dev t body isz out osz flush w =
    Ret (VIRTIO_GPU_RESP_OK_NODATA, out') (after_request flush rq w).
Proof.
  intros <- (len & out' & Hreply & Htype).
  rewrite do_req_eq. cbv zeta. rewrite Hreply, Htype. now exists out'.
Qed.

Lemma set_scanout_loop_ok cfg dev :
  ∀ fuel mask out w,
    u32 mask = mask →
    (length (mask_bits mask) < fuel)%nat →
    xsize (w_uc_priv w) = u16 (VIRTIO_GPU_SIZE_X cfg) →
    ysize (w_uc_priv w) = u16 (VIRTIO_GPU_SIZE_Y cfg) →
    scanout_res_id (w_priv w) = 1 →
    accepts dev (w_trace w)
      (map (set_scanout_request cfg dev) (mask_bits mask)) →
    ∃ w',
      set_scanout_loop fuel dev out mask w = Ret None w' ∧
      w_trace w' =
        w_trace w ++ map (set_scanout_request cfg dev) (mask_bits mask) ∧
      w_priv w' = w_priv w ∧ w_uc_priv w' = w_uc_priv w ∧
      w_plat w' = w_plat w ∧ w_live w' = w_live w.
Proof.
  induction fuel as [| fuel IH];
    intros mask out w Hfix Hfuel Hx Hy Hres Hacc; [lia |].
  cbn [set_scanout_loop].
  destruct (Z.eqb_spec mask 0) as [-> | Hne].
  - exists w. cbn [mask_bits]. rewrite app_nil_r. now repeat split.
  - destruct (mask_bits mask) as [| k rest] eqn:Hbits.
    { now apply mask_bits_nil in Hbits. }
    destruct (mask_bits_step mask k rest Hfix Hbits) as (Hffs & Hrest).
    rewrite Hffs. cbn [map accepts] in Hacc.
    destruct Hacc as (Hfirst & Hacc).
    destruct (do_req_accepted dev VIRTIO_GPU_CMD_SET_SCANOUT
                (BodySetScanout (full_screen dev (w_uc_priv w))
                   (cpu_to_virtio32 dev (Z.of_nat k))
                   (cpu_to_virtio32 dev (scanout_res_id (w_priv w))))
                sizeof_set_scanout out sizeof_ctrl_hdr false w
                (set_scanout_request cfg dev k))
      as (out' & ->); [| exact Hfirst |].
    { unfold sent_request, set_scanout_request, full_screen.
      now rewrite Hx, Hy, Hres. }
    cbn [bind]. rewrite Z.eqb_refl. cbn [negb after_request].
    destruct (IH (Z.land mask (u32 (Z.lnot (Z.shiftl 1 (Z.of_nat k)))))
                out' (push_request (set_scanout_request cfg dev k) w))
      as (w' & Hrun & Htr & Hp & Hu & Hpl & Hlv);
      try assumption.
    + apply clear_u32_fixed. lia.
    + rewrite Hrest. cbn [length] in Hfuel. lia.
    + rewrite Hrest. exact Hacc.
    + exists w'. split; [exact Hrun |].
      rewrite Htr, Hrest. cbn [push_request w_trace map].
      rewrite <- app_assoc. cbn [app].
      now repeat split.
Qed.

(** The enabled scanouts, read off the descriptors. *)
Lemma scanout_enabled_spec pmodes i :
  scanout_enabled pmodes i = true ↔
  ∃ disp, pmodes !! i = Some disp ∧ d_enabled disp ≠ 0.
Proof.
  unfold scanout_enabled. destruct (pmodes !! i) as [disp |].
  - destruct (Z.eqb_spec (d_enabled disp) 0) as [Hz | Hnz]; cbn [negb].
    + split; [discriminate |]. intros (d & Hd & Hne). congruence.
    + split; [| reflexivity]. intros _. now exists disp.
  - split; [discriminate |]. intros (d & Hd & _). discriminate.
Qed.

Lemma indices_from_sorted (P : nat → bool) (n : nat) : ∀ a,
  StronglySorted lt (indices_from P a n).
Proof.
  induction n as [| n IH]; intros a; cbn [indices_from]; [constructor |].
  destruct (P a); cbn [app]; [| apply IH].
  constructor; [apply IH |].
  apply List.Forall_forall. intros j Hj.
  apply in_indices_from in Hj. lia.
Qed.

Lemma enabled_scanouts_sorted pmodes :
  StronglySorted lt (enabled_scanouts pmodes).
Proof. apply indices_from_sorted. Qed.

Lemma elem_of_enabled_scanouts pmodes i :
  i ∈ enabled_scanouts pmodes ↔
  (i < VIRTIO_GPU_MAX_SCANOUTS)%nat ∧
  ∃ disp, pmodes !! i = Some disp ∧ d_enabled disp ≠ 0.
Proof.
  rewrite list_elem_of_In. unfold enabled_scanouts.
  rewrite in_indices_from, scanout_enabled_spec.
  split; intros [H1 H2]; (split; [lia | exact H2]).
Qed.

(** An ascending list is determined by its elements. *)
Lemma sorted_same_elements (l1 : list nat) : ∀ l2,
  StronglySorted lt l1 → StronglySorted lt l2 →
  (∀ i, i ∈ l1 ↔ i ∈ l2) → l1 = l2.
Proof.
  intros l2 H1. revert l2.
  induction H1 as [| a l1 Hs1 IH Ha]; intros l2 H2 Hin.
  - destruct l2 as [| b l2]; [reflexivity |].
    exfalso. apply (not_elem_of_nil b), Hin. left.
  - destruct H2 as [| b l2 Hs2 Hb].
    + exfalso. apply (not_elem_of_nil a), Hin. left.
    + rewrite List.Forall_forall in Ha, Hb.
      assert (Hab : a = b).
      { pose proof (proj1 (Hin a) (list_elem_of_here a l1)) as Hl.
        pose proof (proj2 (Hin b) (list_elem_of_here b l2)) as Hr.
        apply elem_of_cons in Hl, Hr.
        destruct Hl as [-> | Hl]; [reflexivity |].
        destruct Hr as [-> | Hr]; [reflexivity |].
        apply list_elem_of_In in Hl, Hr.
        specialize (Ha _ Hr). specialize (Hb _ Hl). lia. }
      subst b. f_equal. apply IH; [exact Hs2 |].
      intros i. split; intros Hi.
      * pose proof (proj1 (Hin i) (list_elem_of_further i a l1 Hi)) as H.
        apply elem_of_cons in H. destruct H as [-> | H]; [| exact H].
        apply list_elem_of_In in Hi. specialize (Ha _ Hi). lia.
      * pose proof (proj2 (Hin i) (list_elem_of_further i a l2 Hi)) as H.
        apply elem_of_cons in H. destruct H as [-> | H]; [| exact H].
        apply list_elem_of_In in Hi. specialize (Hb _ Hi). lia.
Qed.

(** C3. When the framebuffer is reserved, the queue is found and the
    device completes GET_DISPLAY_INFO with a response in which no scanout
    descriptor is enabled, [virtio_gpu_probe] returns -EINVAL, and the
    GET_DISPLAY_INFO request is all it placed on the queue: no
    RESOURCE_CREATE_2D request is issued. *)
Theorem probe_no_enabled_scanout cfg dev w len out :
  base (w_plat w) ≠ 0 →
  0 ≤ find_vqs_ret dev →
  dev_reply dev (w_trace w ++ [get_display_info_request dev]) =
    Completes len out →
  Forall (fun disp => d_enabled disp = 0) (resp_pmodes out) →
  ∃ w',
    virtio_gpu_probe cfg dev w = Ret (- EINVAL) w' ∧
    w_trace w' = w_trace w ++ [get_display_info_request dev] ∧
    Forall (fun rq => is_cmd dev VIRTIO_GPU_CMD_RESOURCE_CREATE_2D rq = false)
      [get_display_info_request dev].
Proof.
  intros Hbase Hvq Hreply Hnone.
  assert (Hmask : build_scanout_mask (resp_pmodes out) = 0).
  { apply build_scanout_mask_none. apply indices_from_none.
    intros i _. unfold scanout_enabled.
    destruct (resp_pmodes out !! i) as [disp |] eqn:Hi; [| reflexivity].
    rewrite Forall_forall in Hnone.
    rewrite (Hnone disp) by (eapply list_elem_of_lookup_2; exact Hi).
    reflexivity. }
  unfold virtio_gpu_probe.
  destruct (Z.eqb_spec (base (w_plat w)) 0) as [| _]; [contradiction |].
  destruct (Z.ltb_spec (find_vqs_ret dev) 0) as [| _]; [lia |].
  unfold malloc. cbv beta iota zeta.
  rewrite do_req_eq. cbv zeta.
  cbn [sent_request after_request push_request set_live set_priv w_trace].
  change (unfenced_request dev VIRTIO_GPU_CMD_GET_DISPLAY_INFO BodyNone
            sizeof_ctrl_hdr sizeof_resp_display_info)
    with (get_display_info_request dev).
  rewrite Hreply. cbn [bind]. rewrite Hmask. cbn [Z.eqb].
  eexists. split.
  - destruct (negb _); reflexivity.
  - split; [reflexivity |].
    constructor; [| constructor].
    unfold get_display_info_request. now rewrite is_cmd_unfenced.
Qed.

(** Projections of worlds built by the setters. *)
Ltac world_simpl :=
  cbn [w_priv w_uc_priv w_plat w_live w_trace after_request
       set_priv set_uc_priv set_plat set_live push_request free free_if
       set_vq set_scanout_res_id set_fence_id set_in_sync
       vq scanout_res_id fence_id in_sync xsize ysize bpix base size].

(** Bring-up on a device that reports an enabled scanout and accepts the
    requests that follow GET_DISPLAY_INFO. *)
Lemma probe_accepted cfg dev w len out :
  base (w_plat w) ≠ 0 →
  0 ≤ find_vqs_ret dev →
  dev_reply dev (w_trace w ++ [get_display_info_request dev]) =
    Completes len out →
  to_int (virtio32_to_cpu dev (hdr_type (resp_hdr out))) =
    VIRTIO_GPU_RESP_OK_DISPLAY_INFO →
  enabled_scanouts (resp_pmodes out) ≠ [] →
  accepts dev (w_trace w ++ [get_display_info_request dev])
    (resource_create_2d_request cfg dev ::
     resource_attach_backing_request dev (w_plat w) ::
     map (set_scanout_request cfg dev) (enabled_scanouts (resp_pmodes out))) →
  ∃ w',
    virtio_gpu_probe cfg dev w = Ret 0 w' ∧
    w_trace w' =
      w_trace w ++
      [ get_display_info_request dev;
        resource_create_2d_request cfg dev;
        resource_attach_backing_request dev (w_plat w) ] ++
      map (set_scanout_request cfg dev) (enabled_scanouts (resp_pmodes out)) ∧
    scanout_res_id (w_priv w') = 1 ∧
    w_uc_priv w' =
      {| xsize := u16 (VIRTIO_GPU_SIZE_X cfg);
         ysize := u16 (VIRTIO_GPU_SIZE_Y cfg);
         bpix := VideoFormat.VIDEO_BPP32 |} ∧
    fence_id (w_priv w') = fence_id (w_priv w) ∧
    in_sync (w_priv w') = in_sync (w_priv w).
Proof.
  intros Hbase Hvq Hreply Htype Hsome (Hcreate & Hattach & Hscan).
  unfold virtio_gpu_probe.
  destruct (Z.eqb_spec (base (w_plat w)) 0) as [| _]; [contradiction |].
  destruct (Z.ltb_spec (find_vqs_ret dev) 0) as [| _]; [lia |].
  unfold malloc. cbv beta iota zeta.
  rewrite do_req_eq. cbv zeta.
  cbn [sent_request after_request]. world_simpl.
  change (unfenced_request dev VIRTIO_GPU_CMD_GET_DISPLAY_INFO BodyNone
            sizeof_ctrl_hdr sizeof_resp_display_info)
    with (get_display_info_request dev).
  rewrite Hreply. cbn [bind]. rewrite Htype, Z.eqb_refl. cbn [negb].
  destruct (Z.eqb_spec (build_scanout_mask (resp_pmodes out)) 0) as [Hz | _].
  { now apply build_scanout_mask_some in Hz. }
  match goal with
  | |- context [virtio_gpu_do_req ?d ?t ?b ?i ?o ?s false ?w0] =>
      destruct (do_req_accepted d t b i o s false w0
                  (resource_create_2d_request cfg dev) eq_refl Hcreate)
        as (out1 & ->)
  end.
  cbn [bind]. rewrite Z.eqb_refl. cbn [negb]. world_simpl.
  match goal with
  | |- context [virtio_gpu_do_req ?d ?t ?b ?i ?o ?s false ?w0] =>
      destruct (do_req_accepted d t b i o s false w0
                  (resource_attach_backing_request dev (w_plat w)) eq_refl
                  Hattach)
        as (out2 & ->)
  end.
  cbn [bind]. rewrite Z.eqb_refl. cbn [negb]. world_simpl.
  rewrite <- mask_bits_build in Hscan.
  edestruct (set_scanout_loop_ok cfg dev scanout_fuel
               (build_scanout_mask (resp_pmodes out)))
    as (w' & -> & Htr & Hp & Hu & _).
  - apply build_scanout_mask_fixed.
  - pose proof (mask_bits_length (build_scanout_mask (resp_pmodes out))).
    unfold scanout_fuel. lia.
  - reflexivity.
  - reflexivity.
  - reflexivity.
  - exact Hscan.
  - cbn [bind]. eexists. split; [reflexivity |]. world_simpl.
    rewrite Htr, Hp, Hu, mask_bits_build. world_simpl.
    split; [rewrite <- !app_assoc; reflexivity |].
    now repeat split.
Qed.

(** C4. The framebuffer is reserved, the queue is found, and the device
    completes GET_DISPLAY_INFO with OK_DISPLAY_INFO.  Let [idx] list, in
    ascending order, the indices below 16 whose descriptor has a nonzero
    [enabled] word, and let there be at least one.  When the device
    completes the requests that follow with OK_NODATA, the mask
    [virtio_gpu_probe] builds has exactly the bits [idx], the probe
    returns 0, and after GET_DISPLAY_INFO, RESOURCE_CREATE_2D and
    RESOURCE_ATTACH_BACKING it has sent one SET_SCANOUT per index of
    [idx], in that order, each binding the full screen and resource 1,
    the id the instance then holds.  The screen is the geometry the
    instance then reports: the configured size as the 16-bit geometry
    fields hold it. *)
Theorem probe_binds_enabled_scanouts cfg dev w len out idx :
  base (w_plat w) ≠ 0 →
  0 ≤ find_vqs_ret dev →
  dev_reply dev (w_trace w ++ [get_display_info_request dev]) =
    Completes len out →
  to_int (virtio32_to_cpu dev (hdr_type (resp_hdr out))) =
    VIRTIO_GPU_RESP_OK_DISPLAY_INFO →
  StronglySorted lt idx →
  (∀ i : nat,
      i ∈ idx ↔
      (i < VIRTIO_GPU_MAX_SCANOUTS)%nat ∧
      ∃ disp, resp_pmodes out !! i = Some disp ∧ d_enabled disp ≠ 0) →
  idx ≠ [] →
  accepts dev (w_trace w ++ [get_display_info_request dev])
    (resource_create_2d_request cfg dev ::
     resource_attach_backing_request dev (w_plat w) ::
     map (set_scanout_request cfg dev) idx) →
  (∀ i : nat,
      Z.testbit (build_scanout_mask (resp_pmodes out)) (Z.of_nat i) = true ↔
      i ∈ idx) ∧
  ∃ w',
    virtio_gpu_probe cfg dev w = Ret 0 w' ∧
    w_trace w' =
      w_trace w ++
      [ get_display_info_request dev;
        resource_create_2d_request cfg dev;
        resource_attach_backing_request dev (w_plat w) ] ++
      map (set_scanout_request cfg dev) idx ∧
    scanout_res_id (w_priv w') = 1 ∧
    xsize (w_uc_priv w') = u16 (VIRTIO_GPU_SIZE_X cfg) ∧
    ysize (w_uc_priv w') = u16 (VIRTIO_GPU_SIZE_Y cfg).
Proof.
  intros Hbase Hvq Hreply Htype Hsorted Hidx Hsome Hacc.
  assert (Heq : idx = enabled_scanouts (resp_pmodes out)).
  { apply sorted_same_elements;
      [exact Hsorted | apply enabled_scanouts_sorted |].
    intros i. now rewrite Hidx, elem_of_enabled_scanouts. }
  split.
  { intros i.
    rewrite Hidx, build_scanout_mask_bit, andb_true_iff, Nat.ltb_lt.
    now rewrite scanout_enabled_spec. }
  subst idx.
  destruct (probe_accepted cfg dev w len out)
    as (w' & Hrun & Htr & Hid & Hgeo & _); try assumption.
  exists w'. rewrite Hgeo. now repeat split.
Qed.

Lemma healthy_dev_answers enabled : answers_ok_nodata (healthy_dev enabled).
Proof.
  intros hist rq Hcmd.
  unfold healthy_dev, sample_dev, dev_reply, last_code.
  rewrite last_snoc.
  unfold is_cmd, virtio32_to_cpu, cpu_to_virtio32, cpu_to_le32 in Hcmd.
  cbn [virtio_is_little_endian version_1 host_le healthy_dev sample_dev orb]
    in Hcmd.
  destruct (Z.eqb_spec (hdr_type (rq_hdr rq))
              (ctrl_code VIRTIO_GPU_CMD_GET_DISPLAY_INFO)) as [Heq | _].
  - rewrite Heq in Hcmd. discriminate.
  - destruct (hdr_type (rq_hdr rq) =? 0); do 2 eexists; split; reflexivity.
Qed.

Lemma probe_no_enabled_scanout_witness :
  ∃ w',
    virtio_gpu_probe sample_cfg (healthy_dev []) reserved_world =
      Ret (- EINVAL) w' ∧
    w_trace w' =
      w_trace reserved_world ++ [get_display_info_request (healthy_dev [])] ∧
    Forall (fun rq => is_cmd (healthy_dev []) VIRTIO_GPU_CMD_RESOURCE_CREATE_2D
                        rq = false)
      [get_display_info_request (healthy_dev [])].
Proof.
  apply (probe_no_enabled_scanout sample_cfg (healthy_dev []) reserved_world
           sizeof_resp_display_info (display_info [])).
  - vm_compute. discriminate.
  - vm_compute. discriminate.
  - reflexivity.
  - vm_compute. repeat constructor.
Defined.

Lemma probe_binds_enabled_scanouts_witness :
  let dev := sample_dev [1; 0; 1] (ctrl_code VIRTIO_GPU_CMD_TRANSFER_TO_HOST_2D)
               VIRTIO_GPU_RESP_ERR_UNSPEC in
  let pmodes := resp_pmodes (display_info [1; 0; 1]) in
  let idx := [0; 2]%nat in
  (∀ i : nat,
      Z.testbit (build_scanout_mask pmodes) (Z.of_nat i) = true ↔ i ∈ idx) ∧
  ∃ w',
    virtio_gpu_probe sample_cfg dev reserved_world = Ret 0 w' ∧
    w_trace w' =
      w_trace reserved_world ++
      [ get_display_info_request dev;
        resource_create_2d_request sample_cfg dev;
        resource_attach_backing_request dev (w_plat reserved_world) ] ++
      map (set_scanout_request sample_cfg dev) idx ∧
    scanout_res_id (w_priv w') = 1 ∧
    xsize (w_uc_priv w') = u16 (VIRTIO_GPU_SIZE_X sample_cfg) ∧
    ysize (w_uc_priv w') = u16 (VIRTIO_GPU_SIZE_Y sample_cfg).
Proof.
  intros dev pmodes idx.
  apply (probe_binds_enabled_scanouts sample_cfg dev reserved_world
           sizeof_resp_display_info (display_info [1; 0; 1]) idx).
  - vm_compute. discriminate.
  - vm_compute. discriminate.
  - reflexivity.
  - reflexivity.
  - exact (enabled_scanouts_sorted pmodes).
  - exact (elem_of_enabled_scanouts pmodes).
  - discriminate.
  - cbn [accepts map].
    repeat (split;
            [do 2 eexists; split; [vm_compute; reflexivity | reflexivity] |]).
    exact I.
Defined.

(** *** Frame synchronisation *)

(** C5. A flush that starts with the in-progress flag clear issues
    TRANSFER_TO_HOST_2D.  If that exchange returns anything but OK_NODATA,
    the flush returns -EINVAL with the flag clear again and RESOURCE_FLUSH
    is never placed on the queue.  Otherwise it issues RESOURCE_FLUSH,
    clears the flag, and returns 0 when that exchange returns OK_NODATA
    and -EINVAL when it returns anything else. *)
Theorem video_sync_outcome dev w t1 :
  in_sync (w_priv w) = false →
  exchange_ret dev
    (dev_reply dev (w_trace w ++ [transfer_to_host_2d_request dev w])) =
    Some t1 →
  (t1 ≠ VIRTIO_GPU_RESP_OK_NODATA →
   ∃ w',
     virtio_gpu_video_sync dev w = Ret (- EINVAL) w' ∧
     in_sync (w_priv w') = false ∧
     w_trace w' = w_trace w ++ [transfer_to_host_2d_request dev w]) ∧
  (t1 = VIRTIO_GPU_RESP_OK_NODATA →
   ∀ t2,
     exchange_ret dev
       (dev_reply dev
          (w_trace w ++ [transfer_to_host_2d_request dev w;
                         resource_flush_request dev w])) = Some t2 →
     ∃ w',
       virtio_gpu_video_sync dev w =
         Ret (if t2 =? VIRTIO_GPU_RESP_OK_NODATA then 0 else - EINVAL) w' ∧
       in_sync (w_priv w') = false ∧
       w_trace w' = w_trace w ++ [transfer_to_host_2d_request dev w;
                                  resource_flush_request dev w]).
Proof.
  intros Hsync H1.
  unfold virtio_gpu_video_sync. rewrite Hsync.
  rewrite do_req_eq. cbv zeta. cbn [sent_request]. world_simpl.
  change (fenced_request dev VIRTIO_GPU_CMD_TRANSFER_TO_HOST_2D _ _ _ _)
    with (transfer_to_host_2d_request dev w).
  set (rq1 := transfer_to_host_2d_request dev w) in *.
  split.
  - intros Hbad.
    assert (Hne : (t1 =? VIRTIO_GPU_RESP_OK_NODATA) = false)
      by now apply Z.eqb_neq.
    destruct (dev_reply dev (w_trace w ++ [rq1])) as [errno | len out |];
      cbn [exchange_ret] in H1; [| | discriminate];
      injection H1 as H1; cbn [bind]; rewrite H1, Hne; cbn [negb];
      eexists; (split; [reflexivity | world_simpl; now split]).
  - intros Hok t2 H2.
    assert (Heq : (t1 =? VIRTIO_GPU_RESP_OK_NODATA) = true)
      by now apply Z.eqb_eq.
    assert (Hnext : ∀ out1,
      ∃ w',
        (call ((ret, ctrl_hdr_out), w0) <-
           virtio_gpu_do_req dev VIRTIO_GPU_CMD_RESOURCE_FLUSH
             (BodyResourceFlush (full_screen dev (w_uc_priv w))
                (cpu_to_virtio32 dev (scanout_res_id (w_priv w))) 0)
             sizeof_resource_flush out1 sizeof_ctrl_hdr true
             (after_request true rq1
                (set_priv (set_in_sync true (w_priv w)) w));
         if negb (ret =? VIRTIO_GPU_RESP_OK_NODATA)
         then Ret (- EINVAL) (set_priv (set_in_sync false (w_priv w0)) w0)
         else Ret 0 (set_priv (set_in_sync false (w_priv w0)) w0)) =
        Ret (if t2 =? VIRTIO_GPU_RESP_OK_NODATA then 0 else - EINVAL) w' ∧
        in_sync (w_priv w') = false ∧
        w_trace w' = w_trace w ++ [rq1; resource_flush_request dev w]).
    { intros out1. rewrite do_req_eq. cbv zeta. cbn [sent_request]. world_simpl.
      change (fenced_request dev VIRTIO_GPU_CMD_RESOURCE_FLUSH _ _ _ _)
        with (resource_flush_request dev w).
      rewrite <- app_assoc. cbn [app].
      destruct (dev_reply dev (w_trace w ++ [rq1; resource_flush_request dev w]))
        as [errno | len out |];
        cbn [exchange_ret] in H2; [| | discriminate];
        injection H2 as H2; cbn [bind]; rewrite H2;
        destruct (t2 =? VIRTIO_GPU_RESP_OK_NODATA); cbn [negb];
        eexists; (split; [reflexivity | world_simpl;
                          rewrite <- app_assoc; now split]). }
    destruct (dev_reply dev (w_trace w ++ [rq1])) as [errno | len out |];
      cbn [exchange_ret] in H1; [| | discriminate];
      injection H1 as H1; cbn [bind]; rewrite H1, Heq; cbn [negb];
      apply Hnext.
Qed.

Lemma video_sync_outcome_witness :
  let dev := sample_dev [1] (ctrl_code VIRTIO_GPU_CMD_RESOURCE_FLUSH)
               VIRTIO_GPU_RESP_ERR_UNSPEC in
  ∃ w',
    virtio_gpu_video_sync dev reserved_world = Ret (- EINVAL) w' ∧
    in_sync (w_priv w') = false ∧
    w_trace w' =
      w_trace reserved_world ++
      [transfer_to_host_2d_request dev reserved_world;
       resource_flush_request dev reserved_world].
Proof.
  intros dev.
  exact (proj2 (video_sync_outcome dev reserved_world
                  VIRTIO_GPU_RESP_OK_NODATA eq_refl eq_refl)
           eq_refl VIRTIO_GPU_RESP_ERR_UNSPEC eq_refl).
Defined.

(** *** Every path through bring-up *)

Lemma set_scanout_loop_frame dev fuel : ∀ out mask w,
  leaves (set_scanout_loop fuel dev out mask w) (fun w' =>
    w_priv w' = w_priv w ∧ w_uc_priv w' = w_uc_priv w ∧
    w_plat w' = w_plat w ∧ w_live w' = w_live w ∧
    ∃ sent, w_trace w' = w_trace w ++ sent ∧
            existsb (is_cmd dev VIRTIO_GPU_CMD_RESOURCE_CREATE_2D) sent =
            false).
Proof.
  unfold leaves.
  induction fuel as [| fuel IH]; intros out mask w; cbn [set_scanout_loop].
  - cbn [world_of]. repeat split. exists []. now rewrite app_nil_r.
  - destruct (mask =? 0).
    { cbn [world_of]. repeat split. exists []. now rewrite app_nil_r. }
    rewrite do_req_eq. cbv zeta. cbn [sent_request].
    set (rq := unfenced_request dev VIRTIO_GPU_CMD_SET_SCANOUT _ _ _).
    assert (Hrq : is_cmd dev VIRTIO_GPU_CMD_RESOURCE_CREATE_2D rq = false)
      by (unfold rq; now rewrite is_cmd_unfenced).
    assert (Hone : ∀ w1 : world,
      w_priv w1 = w_priv (after_request false rq w) →
      w_uc_priv w1 = w_uc_priv (after_request false rq w) →
      w_plat w1 = w_plat (after_request false rq w) →
      w_live w1 = w_live (after_request false rq w) →
      (∃ sent, w_trace w1 = w_trace (after_request false rq w) ++ sent ∧
               existsb (is_cmd dev VIRTIO_GPU_CMD_RESOURCE_CREATE_2D) sent =
               false) →
      w_priv w1 = w_priv w ∧ w_uc_priv w1 = w_uc_priv w ∧
      w_plat w1 = w_plat w ∧ w_live w1 = w_live w ∧
      ∃ sent, w_trace w1 = w_trace w ++ sent ∧
              existsb (is_cmd dev VIRTIO_GPU_CMD_RESOURCE_CREATE_2D) sent =
              false).
    { intros w1 Hp Hu Hpl Hlv (sent & Htr & Hno). revert Htr. world_simpl.
      intros Htr. repeat split; try assumption.
      exists (rq :: sent). rewrite Htr, <- app_assoc. cbn [app existsb].
      now rewrite Hrq, Hno. }
    assert (Hhere : ∃ sent,
      w_trace (after_request false rq w) =
        w_trace (after_request false rq w) ++ sent ∧
      existsb (is_cmd dev VIRTIO_GPU_CMD_RESOURCE_CREATE_2D) sent = false)
      by (exists []; now rewrite app_nil_r).
    destruct (dev_reply dev (w_trace w ++ [rq])) as [errno | len resp |];
      cbn [bind world_of].
    + destruct (negb _); cbn [world_of].
      * now apply Hone.
      * destruct (IH out (Z.land mask (u32 (Z.lnot (Z.shiftl 1
                     (u32 (ffs mask - 1)))))) (after_request false rq w))
          as (Hp & Hu & Hpl & Hlv & Hs).
        now apply Hone.
    + destruct (negb _); cbn [world_of].
      * now apply Hone.
      * destruct (IH resp (Z.land mask (u32 (Z.lnot (Z.shiftl 1
                     (u32 (ffs mask - 1)))))) (after_request false rq w))
          as (Hp & Hu & Hpl & Hlv & Hs).
        now apply Hone.
    + now apply Hone.
Qed.

(** The fuel of the scanout loop is never used up. *)
Lemma set_scanout_loop_has_fuel dev fuel : ∀ out mask w,
  u32 mask = mask → (length (mask_bits mask) < fuel)%nat →
  has_fuel (set_scanout_loop fuel dev out mask w).
Proof.
  induction fuel as [| fuel IH]; intros out mask w Hfix Hfuel; [lia |].
  cbn [set_scanout_loop].
  destruct (Z.eqb_spec mask 0) as [| Hne]; [exact I |].
  destruct (mask_bits mask) as [| k rest] eqn:Hbits.
  { now apply mask_bits_nil in Hbits. }
  destruct (mask_bits_step mask k rest Hfix Hbits) as (Hffs & Hrest).
  rewrite Hffs, do_req_eq. cbv zeta.
  assert (Hnext : ∀ out' w',
    has_fuel (set_scanout_loop fuel dev out'
                (Z.land mask (u32 (Z.lnot (Z.shiftl 1 (Z.of_nat k))))) w')).
  { intros out' w'. apply IH.
    - apply clear_u32_fixed. lia.
    - rewrite Hrest. cbn [length] in Hfuel. lia. }
  destruct (dev_reply dev _) as [errno | len resp |]; cbn [bind];
    [| | exact I]; (destruct (negb _); [exact I | apply Hnext]).
Qed.

Lemma probe_loop dev out pmodes w :
  has_fuel (set_scanout_loop scanout_fuel dev out
              (build_scanout_mask pmodes) w) ∧
  leaves (set_scanout_loop scanout_fuel dev out (build_scanout_mask pmodes) w)
    (fun w' =>
       w_priv w' = w_priv w ∧ w_uc_priv w' = w_uc_priv w ∧
       w_plat w' = w_plat w ∧ w_live w' = w_live w ∧
       ∃ sent, w_trace w' = w_trace w ++ sent ∧
               existsb (is_cmd dev VIRTIO_GPU_CMD_RESOURCE_CREATE_2D) sent =
               false).
Proof.
  split; [| apply set_scanout_loop_frame].
  apply set_scanout_loop_has_fuel.
  - apply build_scanout_mask_fixed.
  - pose proof (mask_bits_length (build_scanout_mask pmodes)).
    unfold scanout_fuel. lia.
Qed.

(** A block that was allocated and freed again leaves the heap as it
    was. *)
Lemma alloc_free (live : gset nat) :
  ({[fresh live]} ∪ live) ∖ {[fresh live]} = live.
Proof.
  pose proof (is_fresh live) as Hfresh. apply set_eq. intros p.
  rewrite elem_of_difference, elem_of_union, !elem_of_singleton.
  split.
  - intros [[-> | Hin] Hne]; [contradiction | exact Hin].
  - intros Hin. split; [now right |]. intros ->. contradiction.
Qed.

(** An exchange returns some value or hangs, in the same world. *)
Lemma do_req_cases dev t body isz out osz flush w
    (P : result (Z * response) → Prop) :
  (∀ ret out',
     P (Ret (ret, out')
          (after_request flush (sent_request dev t body isz osz flush w) w))) →
  P (Hang (after_request flush (sent_request dev t body isz osz flush w) w)) →
  P (virtio_gpu_do_req dev t body isz out osz flush w).
Proof.
  intros Hret Hhang. rewrite do_req_eq. cbv zeta.
  destruct (dev_reply dev _); auto.
Qed.

Ltac path_simpl :=
  cbn [w_priv w_uc_priv w_plat w_live w_trace after_request sent_request
       set_priv set_uc_priv set_plat set_live push_request free free_if
       set_vq set_scanout_res_id set_fence_id set_in_sync malloc bind negb
       vq scanout_res_id fence_id in_sync xsize ysize bpix base size].

Ltac path_simpl_in H :=
  cbn [w_priv w_uc_priv w_plat w_live w_trace after_request sent_request
       set_priv set_uc_priv set_plat set_live push_request free free_if
       set_vq set_scanout_res_id set_fence_id set_in_sync malloc bind negb
       vq scanout_res_id fence_id in_sync xsize ysize bpix base size] in H.

(** One step along a driver function: a test, an exchange that returns
    or hangs, or the scanout loop with what is known of the world it ends
    in. *)
Ltac path_step :=
  match goal with
  | |- context [if negb (?a =? ?b) then _ else _] =>
      destruct (Z.eqb_spec a b); path_simpl; rewrite ?alloc_free
  | |- context [if ?a =? ?b then _ else _] =>
      destruct (Z.eqb_spec a b); path_simpl; rewrite ?alloc_free
  | |- context [if ?a <? ?b then _ else _] =>
      destruct (Z.ltb_spec a b); path_simpl
  | |- context [bind (virtio_gpu_do_req ?d ?t ?b ?i ?o ?s ?f ?w) ?k] =>
      pattern (virtio_gpu_do_req d t b i o s f w);
      apply do_req_cases; [intros ?ret ?out |];
      path_simpl; rewrite ?alloc_free
  | |- context [bind (set_scanout_loop ?f ?d ?o (build_scanout_mask ?pm) ?w) _] =>
      let Hfuel := fresh "Hfuel" in
      let Hp := fresh "Hp" in
      let Hu := fresh "Hu" in
      let Hpl := fresh "Hpl" in
      let Hlv := fresh "Hlv" in
      let sent := fresh "sent" in
      let Htr := fresh "Htr" in
      let Hno := fresh "Hno" in
      destruct (probe_loop d o pm w)
        as (Hfuel & Hp & Hu & Hpl & Hlv & sent & Htr & Hno);
      destruct (set_scanout_loop f d o (build_scanout_mask pm) w)
        as [[?ret |] ?wl | ?wl | ?wl];
      cbn [world_of has_fuel] in Hfuel, Hp, Hu, Hpl, Hlv, Htr;
      [| | | exfalso; exact Hfuel];
      path_simpl_in Hp; path_simpl_in Hu; path_simpl_in Hpl;
      path_simpl_in Hlv; path_simpl_in Htr; path_simpl
  end.

Ltac path_leaves :=
  unfold leaves, out_free_set_scanout, out_free_res_buf,
    out_free_res_create_2d, out_free_disp;
  cbn [has_fuel returns_with world_of]; path_simpl.

(** What holds on each of the twelve paths through [virtio_gpu_probe]:
    the model has fuel left; when the probe returns, the heap is as it
    was, and when it returns 0 the geometry is the configured one as the
    16-bit fields hold it; the
    framebuffer reservation is not touched; the resource id keeps
    following the RESOURCE_CREATE_2D requests on the queue, and once 1 it
    stays 1. *)
Lemma probe_paths cfg dev w :
  has_fuel (virtio_gpu_probe cfg dev w) ∧
  returns_with (virtio_gpu_probe cfg dev w) (fun ret w' =>
    w_live w' = w_live w ∧
    (ret = 0 →
     w_uc_priv w' =
     {| xsize := u16 (VIRTIO_GPU_SIZE_X cfg);
        ysize := u16 (VIRTIO_GPU_SIZE_Y cfg);
        bpix := VideoFormat.VIDEO_BPP32 |})) ∧
  leaves (virtio_gpu_probe cfg dev w) (fun w' =>
    w_plat w' = w_plat w ∧
    (scanout_res_id (w_priv w) = 1 → scanout_res_id (w_priv w') = 1) ∧
    (resource_id_tracks_create dev w → resource_id_tracks_create dev w')).
Proof.
  unfold virtio_gpu_probe. path_simpl. repeat path_step.
  all: path_leaves.
  all: split; [exact I |].
  all: split;
    [first [exact I
           | split;
             [try rewrite Hlv; now rewrite ?alloc_free
             | intros Hret; unfold EINVAL in Hret; try lia;
               try rewrite Hu; reflexivity]] |].
  all: split; [try rewrite Hpl; reflexivity |].
  all: split; [intros Hone; try rewrite Hp; path_simpl;
               (exact Hone || reflexivity) |].
  all: unfold resource_id_tracks_create; intros Hinv; path_simpl;
    try rewrite Hp; try rewrite Htr; path_simpl;
    rewrite ?existsb_app; cbn [existsb];
    rewrite ?is_cmd_unfenced, ?Hno;
    cbn [ctrl_code Z.eqb Pos.eqb];
    rewrite ?orb_false_r, ?orb_true_r; cbn [orb];
    (exact Hinv || reflexivity).
Qed.

(** The two paths of a flush that starts, and the one that does not. *)
Lemma video_sync_paths dev w :
  has_fuel (virtio_gpu_video_sync dev w) ∧
  leaves (virtio_gpu_video_sync dev w) (fun w' =>
    scanout_res_id (w_priv w') = scanout_res_id (w_priv w) ∧
    (resource_id_tracks_create dev w → resource_id_tracks_create dev w')).
Proof.
  unfold virtio_gpu_video_sync.
  destruct (in_sync (w_priv w)); [now split |].
  path_simpl. repeat path_step.
  all: path_leaves.
  all: split; [exact I |].
  all: split; [reflexivity |].
  all: unfold resource_id_tracks_create; intros Hinv; path_simpl;
    rewrite ?existsb_app; cbn [existsb];
    rewrite ?is_cmd_fenced;
    cbn [ctrl_code Z.eqb Pos.eqb];
    rewrite ?orb_false_r; exact Hinv.
Qed.

(** Facts about one entry point. *)
Lemma enter_paths cfg dev e w :
  has_fuel (enter cfg dev e w) ∧
  leaves (enter cfg dev e w) (fun w' =>
    (scanout_res_id (w_priv w) = 1 → scanout_res_id (w_priv w') = 1) ∧
    (resource_id_tracks_create dev w → resource_id_tracks_create dev w')).
Proof.
  destruct e as [| fb | |]; cbn [enter].
  - unfold virtio_gpu_bind, leaves. cbn [has_fuel world_of]. auto.
  - unfold leaves. cbn [has_fuel world_of]. auto.
  - destruct (probe_paths cfg dev w) as (Hf & _ & Hl). split; [exact Hf |].
    unfold leaves in *. tauto.
  - destruct (video_sync_paths dev w) as (Hf & Hl). split; [exact Hf |].
    unfold leaves in *. destruct Hl as [Heq Hinv]. split; [| exact Hinv].
    now rewrite Heq.
Qed.

Lemma run_paths cfg dev es : ∀ w,
  has_fuel (run cfg dev es w) ∧
  leaves (run cfg dev es w) (fun w' =>
    (scanout_res_id (w_priv w) = 1 → scanout_res_id (w_priv w') = 1) ∧
    (resource_id_tracks_create dev w → resource_id_tracks_create dev w')).
Proof.
  induction es as [| e es IH]; intros w; cbn [run].
  - unfold leaves. cbn [has_fuel world_of]. auto.
  - destruct (enter_paths cfg dev e w) as (Hf & Hl). unfold leaves in Hl.
    destruct (enter cfg dev e w) as [ret w1 | w1 | w1];
      cbn [bind has_fuel world_of] in *; [| now split | contradiction].
    destruct (IH w1) as (Hf1 & Hl1). unfold leaves in Hl1 |- *.
    destruct (run cfg dev es w1) as [rets w2 | w2 | w2];
      cbn [bind has_fuel world_of] in *; (split; [assumption | tauto]).
Qed.

(** The model never runs out of fuel: every entry point returns or hangs
    on the device. *)
Lemma run_has_fuel cfg dev es w : has_fuel (run cfg dev es w).
Proof. apply run_paths. Qed.

(** *** The resource id *)

(** C6, as the code has it.  Over every run of the driver from a freshly
    zeroed instance, the resource id is 0 as long as no RESOURCE_CREATE_2D
    request has been placed on the queue and 1 from then on, whether or not
    that request succeeds; and once it is nonzero, no further entry into
    the driver changes it. *)
Theorem resource_id_follows_create cfg dev es :
  let w' := world_of (run cfg dev es initial_world) in
  resource_id_tracks_create dev w' ∧
  ∀ es',
    scanout_res_id (w_priv w') ≠ 0 →
    scanout_res_id (w_priv (world_of (run cfg dev es' w'))) =
    scanout_res_id (w_priv w').
Proof.
  intros w'.
  assert (Hinv : resource_id_tracks_create dev w').
  { destruct (run_paths cfg dev es initial_world) as (_ & _ & H).
    apply H. reflexivity. }
  split; [exact Hinv |].
  intros es' Hne.
  assert (Hone : scanout_res_id (w_priv w') = 1).
  { unfold resource_id_tracks_create in Hinv.
    destruct (existsb _ _); [exact Hinv | contradiction]. }
  destruct (run_paths cfg dev es' w') as (_ & H & _).
  rewrite Hone. now apply H.
Qed.

Lemma resource_id_follows_create_witness :
  let dev := healthy_dev [1] in
  let w' := world_of (run sample_cfg dev [Bind; Reserve 0x80000000; Probe]
                        initial_world) in
  scanout_res_id (w_priv w') ≠ 0 ∧
  scanout_res_id (w_priv (world_of (run sample_cfg dev [Sync; Sync] w'))) =
  scanout_res_id (w_priv w').
Proof.
  intros dev w'.
  assert (Hne : scanout_res_id (w_priv w') ≠ 0) by (vm_compute; discriminate).
  split; [exact Hne |].
  exact (proj2 (resource_id_follows_create sample_cfg dev
                  [Bind; Reserve 0x80000000; Probe]) [Sync; Sync] Hne).
Defined.

(** C6 as stated fails: when the device reports a scanout and then
    rejects RESOURCE_CREATE_2D, bring-up fails with -EINVAL and the
    instance, whose resource id was 0, is left with resource id 1. *)
Lemma resource_id_after_failed_create :
  let dev := sample_dev [1] (ctrl_code VIRTIO_GPU_CMD_RESOURCE_CREATE_2D)
               VIRTIO_GPU_RESP_ERR_UNSPEC in
  let m := virtio_gpu_probe sample_cfg dev reserved_world in
  scanout_res_id (w_priv reserved_world) = 0 ∧
  (∃ w', m = Ret (- EINVAL) w') ∧
  scanout_res_id (w_priv (world_of m)) = 1 ∧
  ¬ (scanout_res_id (w_priv (world_of m)) = 0).
Proof.
  intros dev m. split; [reflexivity |]. split; [| split].
  - eexists. vm_compute. reflexivity.
  - vm_compute. reflexivity.
  - vm_compute. discriminate.
Qed.

(** *** Request buffers *)

(** C7. Whenever [virtio_gpu_probe] returns an error, the set of live
    heap blocks is what it was on entry: every request buffer the probe
    allocated has been freed by then. *)
Theorem probe_releases_buffers cfg dev w ret w' :
  virtio_gpu_probe cfg dev w = Ret ret w' →
  ret ≠ 0 →
  w_live w' = w_live w.
Proof.
  intros Hrun _.
  destruct (probe_paths cfg dev w) as (_ & Hret & _).
  rewrite Hrun in Hret. apply Hret.
Qed.

Lemma probe_releases_buffers_witness :
  let dev := sample_dev [1] (ctrl_code VIRTIO_GPU_CMD_RESOURCE_ATTACH_BACKING)
               VIRTIO_GPU_RESP_ERR_UNSPEC in
  let m := virtio_gpu_probe sample_cfg dev reserved_world in
  m = Ret (- EINVAL) (world_of m) ∧
  w_live (world_of m) = w_live reserved_world.
Proof.
  intros dev m.
  assert (Hrun : m = Ret (- EINVAL) (world_of m)) by (vm_compute; reflexivity).
  split; [exact Hrun |].
  apply (probe_releases_buffers sample_cfg dev reserved_world (- EINVAL)).
  - exact Hrun.
  - discriminate.
Defined.

(** *** The framebuffer reservation *)

(** C9. For a configuration in range, [virtio_gpu_bind] returns 0 and asks
    for a framebuffer of SIZE_X * SIZE_X * 4 bytes.  After the video
    uclass has placed the framebuffer and the probe has succeeded, the
    geometry reported to the display subsystem needs
    SIZE_X * SIZE_Y * 4 bytes, so when the two configured sizes differ the
    reserved size is not the size of the reported geometry. *)
Theorem bind_reserves_width_squared cfg dev fb w rets w' :
  config_in_range cfg →
  run cfg dev [Bind; Reserve fb; Probe] w = Ret rets w' →
  last rets = Some 0 →
  (∃ wb, virtio_gpu_bind cfg w = Ret 0 wb ∧
         size (w_plat wb) =
         VIRTIO_GPU_SIZE_X cfg * VIRTIO_GPU_SIZE_X cfg * 4) ∧
  size (w_plat w') = VIRTIO_GPU_SIZE_X cfg * VIRTIO_GPU_SIZE_X cfg * 4 ∧
  geometry_bytes (w_uc_priv w') =
    VIRTIO_GPU_SIZE_X cfg * VIRTIO_GPU_SIZE_Y cfg * 4 ∧
  (VIRTIO_GPU_SIZE_X cfg ≠ VIRTIO_GPU_SIZE_Y cfg →
   size (w_plat w') ≠ geometry_bytes (w_uc_priv w')).
Proof.
  intros (Hx & Hy & Hfit) Hrun Hlast.
  assert (Hsize : u32 (VIRTIO_GPU_SIZE_X cfg * VIRTIO_GPU_SIZE_X cfg *
                       VideoFormat.VNBYTES VideoFormat.VIDEO_BPP32) =
                  VIRTIO_GPU_SIZE_X cfg * VIRTIO_GPU_SIZE_X cfg * 4).
  { change (VideoFormat.VNBYTES VideoFormat.VIDEO_BPP32) with 4.
    apply IntFacts.u32_small. nia. }
  split.
  { eexists. split; [reflexivity |]. cbn [w_plat set_plat size]. exact Hsize. }
  cbn [run enter] in Hrun. unfold virtio_gpu_bind in Hrun.
  cbn [bind] in Hrun.
  set (w0 := set_plat _ (set_plat _ w)) in Hrun.
  destruct (probe_paths cfg dev w0) as (_ & Hret & Hpl & _).
  unfold leaves in Hpl.
  destruct (virtio_gpu_probe cfg dev w0) as [ret w1 | w1 | w1];
    cbn [bind returns_with world_of] in *; try discriminate Hrun.
  injection Hrun as <- <-.
  cbn in Hlast. injection Hlast as ->.
  destruct Hret as (_ & Hgeo). specialize (Hgeo eq_refl).
  assert (Hres : size (w_plat w1) =
                 VIRTIO_GPU_SIZE_X cfg * VIRTIO_GPU_SIZE_X cfg * 4).
  { rewrite Hpl. unfold w0. cbn [w_plat set_plat size]. exact Hsize. }
  assert (Hbytes : geometry_bytes (w_uc_priv w1) =
                   VIRTIO_GPU_SIZE_X cfg * VIRTIO_GPU_SIZE_Y cfg * 4).
  { rewrite Hgeo. unfold geometry_bytes. cbn [xsize ysize bpix].
    rewrite !IntFacts.u16_small by lia.
    change (VideoFormat.VNBYTES VideoFormat.VIDEO_BPP32) with 4.
    reflexivity. }
  split; [exact Hres |]. split; [exact Hbytes |].
  intros Hne. rewrite Hres, Hbytes. nia.
Qed.

Lemma bind_reserves_width_squared_witness :
  let dev := healthy_dev [1] in
  let m := run sample_cfg dev [Bind; Reserve 0x80000000; Probe]
             initial_world in
  size (w_plat (world_of m)) = 1280 * 1280 * 4 ∧
  geometry_bytes (w_uc_priv (world_of m)) = 1280 * 1024 * 4 ∧
  size (w_plat (world_of m)) ≠ geometry_bytes (w_uc_priv (world_of m)).
Proof.
  intros dev m.
  assert (Hrun : m = Ret [0; 0; 0] (world_of m)) by (vm_compute; reflexivity).
  destruct (bind_reserves_width_squared sample_cfg dev 0x80000000
              initial_world [0; 0; 0] (world_of m))
    as (_ & Hsize & Hgeo & Hne).
  - vm_compute. repeat split; discriminate.
  - exact Hrun.
  - reflexivity.
  - split; [exact Hsize |]. split; [exact Hgeo |].
    apply Hne. vm_compute. discriminate.
Defined.

(** *** More on the transport adapter *)

(** X9. A response type survives the byte-order round trip on every host
    and device: when the exchange completes and the type field of the
    response holds a 31-bit code as the device encodes it,
    [virtio_gpu_do_req] returns that code; in particular a device that
    echoes the request type makes it return the command code. *)
Theorem do_req_decodes_type dev t body isz out osz flush w len resp code :
  dev_reply dev
    (w_trace (world_of (virtio_gpu_do_req dev t body isz out osz flush w))) =
  Completes len resp →
  0 ≤ code < 2 ^ 31 →
  hdr_type (resp_hdr resp) = cpu_to_virtio32 dev code →
  ∃ w', virtio_gpu_do_req dev t body isz out osz flush w = Ret (code, resp) w'.
Proof.
  intros Hreply Hcode Htype.
  rewrite do_req_world in Hreply.
  rewrite do_req_eq. cbv zeta.
  unfold after_request in Hreply. cbn [push_request w_trace] in Hreply.
  assert (Htrace : ∀ p, w_trace (if flush then set_priv p w else w) = w_trace w)
    by (intros p; now destruct flush).
  rewrite Htrace in Hreply. rewrite Hreply, Htype, virtio32_roundtrip.
  rewrite IntFacts.to_int_small.
  - rewrite IntFacts.u32_small by lia. eauto.
  - rewrite IntFacts.u32_small by lia. lia.
Qed.

Lemma do_req_decodes_type_witness :
  ∃ w',
    virtio_gpu_do_req terse_dev VIRTIO_GPU_CMD_RESOURCE_FLUSH BodyNone 24
      (no_data 0) 24 true initial_world =
    Ret (VIRTIO_GPU_RESP_OK_NODATA, no_data VIRTIO_GPU_RESP_OK_NODATA) w'.
Proof.
  apply (do_req_decodes_type terse_dev VIRTIO_GPU_CMD_RESOURCE_FLUSH
           BodyNone 24 (no_data 0) 24 true initial_world 0
           (no_data VIRTIO_GPU_RESP_OK_NODATA) VIRTIO_GPU_RESP_OK_NODATA).
  - reflexivity.
  - unfold VIRTIO_GPU_RESP_OK_NODATA. lia.
  - reflexivity.
Defined.

(** X10. When [virtqueue_add] fails, [virtio_gpu_do_req] returns its
    negative error code at once and leaves the response buffer as it was;
    the request has been recorded and, for a fenced request, the fence
    counter has already moved on. *)
Theorem do_req_submission_failure dev t body isz out osz flush w errno :
  dev_reply dev
    (w_trace (world_of (virtio_gpu_do_req dev t body isz out osz flush w))) =
  AddFails errno →
  ∃ w',
    virtio_gpu_do_req dev t body isz out osz flush w =
      Ret (- Z.pos errno, out) w' ∧
    - Z.pos errno < 0 ∧
    w_trace w' = w_trace w ++ [sent_request dev t body isz osz flush w] ∧
    fence_id (w_priv w') =
      (if flush then u64 (fence_id (w_priv w) + 1) else fence_id (w_priv w)).
Proof.
  intros Hreply.
  rewrite do_req_world in Hreply.
  rewrite do_req_eq. cbv zeta.
  unfold after_request in Hreply |- *. cbn [push_request w_trace] in Hreply.
  assert (Htrace : ∀ p, w_trace (if flush then set_priv p w else w) = w_trace w)
    by (intros p; now destruct flush).
  rewrite Htrace in Hreply. rewrite Hreply.
  eexists. split; [reflexivity |]. split; [lia |].
  cbn [push_request w_trace w_priv]. rewrite Htrace.
  split; [reflexivity |]. now destruct flush.
Qed.

Lemma do_req_submission_failure_witness :
  ∃ w',
    virtio_gpu_do_req (full_queue_dev 28) VIRTIO_GPU_CMD_RESOURCE_FLUSH
      BodyNone 24 (no_data 0) 24 true initial_world =
      Ret (- 28, no_data 0) w' ∧
    - 28 < 0 ∧
    w_trace w' =
      w_trace initial_world ++
      [sent_request (full_queue_dev 28) VIRTIO_GPU_CMD_RESOURCE_FLUSH
         BodyNone 24 24 true initial_world] ∧
    fence_id (w_priv w') = u64 (fence_id (w_priv initial_world) + 1).
Proof.
  apply (do_req_submission_failure (full_queue_dev 28)
           VIRTIO_GPU_CMD_RESOURCE_FLUSH BodyNone 24 (no_data 0) 24 true
           initial_world 28).
  reflexivity.
Defined.

(** X11. Whatever the transport does, one call of [virtio_gpu_do_req]
    hands exactly one request to the queue, with the body and the two
    lengths it was given and with context id and ring index 0; it advances
    the fence counter by one, modulo 2^64, when a fence was asked for, and
    changes nothing else in the world. *)
Theorem do_req_footprint dev t body isz out osz flush w :
  let w' := world_of (virtio_gpu_do_req dev t body isz out osz flush w) in
  (∃ rq,
      w_trace w' = w_trace w ++ [rq] ∧
      rq_body rq = body ∧ rq_in_size rq = isz ∧ rq_out_size rq = osz ∧
      hdr_ctx_id (rq_hdr rq) = 0 ∧ hdr_ring_idx (rq_hdr rq) = 0 ∧
      is_cmd dev t rq = true ∧ fenced rq = flush) ∧
  fence_id (w_priv w') =
    (if flush then u64 (fence_id (w_priv w) + 1) else fence_id (w_priv w)) ∧
  vq (w_priv w') = vq (w_priv w) ∧
  scanout_res_id (w_priv w') = scanout_res_id (w_priv w) ∧
  in_sync (w_priv w') = in_sync (w_priv w) ∧
  w_uc_priv w' = w_uc_priv w ∧ w_plat w' = w_plat w ∧
  w_live w' = w_live w.
Proof.
  intros w'. subst w'. rewrite do_req_world.
  split.
  - exists (sent_request dev t body isz osz flush w).
    split; [unfold after_request; cbn [push_request w_trace];
            now destruct flush |].
    unfold sent_request. destruct flush.
    + rewrite is_cmd_fenced, Z.eqb_refl.
      repeat split. unfold fenced, fenced_request. cbn [rq_hdr hdr_flags].
      pose proof (fence_flag_nonzero dev) as Hne.
      now destruct (Z.eqb_spec (cpu_to_virtio32 dev VIRTIO_GPU_FLAG_FENCE) 0).
    + rewrite is_cmd_unfenced, Z.eqb_refl. now repeat split.
  - unfold after_request. destruct flush; now repeat split.
Qed.

(** *** More on bring-up *)

Lemma mask_bits_zero : mask_bits 0 = [].
Proof. reflexivity. Qed.

(** The scanout loop on any device: what it sends is an initial part of
    the SET_SCANOUT requests for the set bits, in ascending order, all of
    them when it runs to the end; when it gives up, it does so with
    -EINVAL. *)
Lemma set_scanout_loop_sends cfg dev fuel : ∀ out mask w,
  u32 mask = mask →
  (length (mask_bits mask) < fuel)%nat →
  xsize (w_uc_priv w) = u16 (VIRTIO_GPU_SIZE_X cfg) →
  ysize (w_uc_priv w) = u16 (VIRTIO_GPU_SIZE_Y cfg) →
  scanout_res_id (w_priv w) = 1 →
  ∃ sent,
    w_trace (world_of (set_scanout_loop fuel dev out mask w)) =
      w_trace w ++ sent ∧
    sent `prefix_of` map (set_scanout_request cfg dev) (mask_bits mask) ∧
    returns_with (set_scanout_loop fuel dev out mask w) (fun jump _ =>
      match jump with
      | None => sent = map (set_scanout_request cfg dev) (mask_bits mask)
      | Some ret => ret = - EINVAL
      end).
Proof.
  induction fuel as [| fuel IH];
    intros out mask w Hfix Hfuel Hx Hy Hres; [lia |].
  cbn [set_scanout_loop].
  destruct (Z.eqb_spec mask 0) as [-> | Hne].
  { exists []. rewrite mask_bits_zero, app_nil_r.
    cbn [world_of returns_with map]. repeat split. apply prefix_nil. }
  destruct (mask_bits mask) as [| k rest] eqn:Hbits.
  { now apply mask_bits_nil in Hbits. }
  destruct (mask_bits_step mask k rest Hfix Hbits) as (Hffs & Hrest).
  rewrite Hffs.
  match goal with
  | |- context [virtio_gpu_do_req ?d ?t ?b ?i ?o ?s ?f ?w0] =>
      pattern (virtio_gpu_do_req d t b i o s f w0); apply do_req_cases
  end.
  - intros ret out'. unfold after_request, sent_request. cbn [bind].
    set (rq := unfenced_request dev VIRTIO_GPU_CMD_SET_SCANOUT _ _ _).
    assert (Hrq : rq = set_scanout_request cfg dev k).
    { unfold rq, set_scanout_request, full_screen.
      now rewrite Hx, Hy, Hres. }
    destruct (Z.eqb_spec ret VIRTIO_GPU_RESP_OK_NODATA) as [_ | _];
      cbn [negb].
    + destruct (IH out'
                  (Z.land mask (u32 (Z.lnot (Z.shiftl 1 (Z.of_nat k)))))
                  (push_request rq w))
        as (sent & Htr & Hpre & Hend); try assumption.
      * apply clear_u32_fixed. lia.
      * rewrite Hrest. cbn [length] in Hfuel. lia.
      * exists (rq :: sent). rewrite Htr. cbn [push_request w_trace map].
        rewrite <- app_assoc. split; [reflexivity |].
        rewrite Hrest in Hpre, Hend. rewrite <- Hrq.
        split; [now apply prefix_cons |].
        destruct (set_scanout_loop fuel dev out' _ _) as [[r |] w1 | w1 | w1];
          cbn [returns_with] in *; congruence.
    + exists [rq]. cbn [world_of returns_with push_request w_trace map].
      split; [reflexivity |]. split; [| reflexivity].
      rewrite <- Hrq. apply prefix_cons, prefix_nil.
  - unfold after_request, sent_request. cbn [bind].
    set (rq := unfenced_request dev VIRTIO_GPU_CMD_SET_SCANOUT _ _ _).
    assert (Hrq : rq = set_scanout_request cfg dev k).
    { unfold rq, set_scanout_request, full_screen.
      now rewrite Hx, Hy, Hres. }
    exists [rq]. cbn [world_of returns_with push_request w_trace map].
    split; [reflexivity |]. split; [| exact I].
    rewrite <- Hrq. apply prefix_cons, prefix_nil.
Qed.

Lemma probe_loop_sends cfg dev out pmodes w :
  xsize (w_uc_priv w) = u16 (VIRTIO_GPU_SIZE_X cfg) →
  ysize (w_uc_priv w) = u16 (VIRTIO_GPU_SIZE_Y cfg) →
  scanout_res_id (w_priv w) = 1 →
  ∃ sent,
    w_trace (world_of (set_scanout_loop scanout_fuel dev out
                         (build_scanout_mask pmodes) w)) =
      w_trace w ++ sent ∧
    sent `prefix_of`
      map (set_scanout_request cfg dev) (enabled_scanouts pmodes) ∧
    returns_with (set_scanout_loop scanout_fuel dev out
                    (build_scanout_mask pmodes) w) (fun jump _ =>
      match jump with
      | None => sent = map (set_scanout_request cfg dev)
                         (enabled_scanouts pmodes)
      | Some ret => ret = - EINVAL
      end).
Proof.
  intros Hx Hy Hres. rewrite <- mask_bits_build.
  apply set_scanout_loop_sends; try assumption.
  - apply build_scanout_mask_fixed.
  - pose proof (mask_bits_length (build_scanout_mask pmodes)).
    unfold scanout_fuel. lia.
Qed.

(** One step along [virtio_gpu_probe], with what the scanout loop sends. *)
Ltac send_step cfg :=
  match goal with
  | |- context [if negb (?a =? ?b) then _ else _] =>
      destruct (Z.eqb_spec a b); path_simpl; rewrite ?alloc_free
  | |- context [if ?a =? ?b then _ else _] =>
      destruct (Z.eqb_spec a b); path_simpl; rewrite ?alloc_free
  | |- context [bind (virtio_gpu_do_req ?d ?t ?b ?i ?o ?s ?f ?w) ?k] =>
      pattern (virtio_gpu_do_req d t b i o s f w);
      apply do_req_cases; [intros ?ret ?out |];
      path_simpl; rewrite ?alloc_free
  | |- context [bind (set_scanout_loop ?f ?d ?o (build_scanout_mask ?pm) ?w) _] =>
      let Hfuel := fresh "Hfuel" in
      let Hp := fresh "Hp" in
      let Hu := fresh "Hu" in
      let Hpl := fresh "Hpl" in
      let Hlv := fresh "Hlv" in
      let sent := fresh "sent" in
      let Htr := fresh "Htr" in
      let Hno := fresh "Hno" in
      let sent' := fresh "sent" in
      let Htr' := fresh "Htr" in
      let Hpre := fresh "Hpre" in
      let Hend := fresh "Hend" in
      destruct (probe_loop d o pm w)
        as (Hfuel & Hp & Hu & Hpl & Hlv & sent' & Htr' & Hno);
      clear sent' Htr' Hno;
      destruct (probe_loop_sends cfg d o pm w)
        as (sent & Htr & Hpre & Hend); [reflexivity | reflexivity | reflexivity |];
      destruct (set_scanout_loop f d o (build_scanout_mask pm) w)
        as [[?ret |] ?wl | ?wl | ?wl];
      cbn [world_of has_fuel returns_with] in Hfuel, Hp, Hu, Hpl, Hlv, Htr, Hend;
      [| | | exfalso; exact Hfuel];
      path_simpl_in Hp; path_simpl_in Hu; path_simpl_in Hpl;
      path_simpl_in Hlv; path_simpl_in Htr; path_simpl
  end.

(** Everything [virtio_gpu_probe] sends, on any device. *)
Lemma probe_sends cfg dev w :
  ∃ sent,
    w_trace (world_of (virtio_gpu_probe cfg dev w)) = w_trace w ++ sent ∧
    sent `prefix_of`
      bring_up_sequence cfg dev (w_plat w) (display_info_reply dev w) ∧
    fence_id (w_priv (world_of (virtio_gpu_probe cfg dev w))) =
      fence_id (w_priv w) ∧
    in_sync (w_priv (world_of (virtio_gpu_probe cfg dev w))) =
      in_sync (w_priv w) ∧
    (sent = [] ↔ base (w_plat w) = 0 ∨ find_vqs_ret dev < 0) ∧
    returns_with (virtio_gpu_probe cfg dev w) (fun ret w' =>
      (ret = 0 ∧
       sent = bring_up_sequence cfg dev (w_plat w)
                (display_info_reply dev w) ∧
       enabled_scanouts (display_info_reply dev w) ≠ [] ∧
       scanout_res_id (w_priv w') = 1) ∨
      ret = - EINVAL ∨
      (ret = find_vqs_ret dev ∧ ret < 0 ∧ base (w_plat w) ≠ 0)).
Proof.
  unfold virtio_gpu_probe.
  destruct (Z.eqb_spec (base (w_plat w)) 0) as [Hbase | Hbase].
  { exists []. cbn [world_of returns_with]. rewrite app_nil_r.
    split; [reflexivity |]. split; [apply prefix_nil |].
    split; [reflexivity |]. split; [reflexivity |].
    split; [tauto |]. right. now left. }
  destruct (Z.ltb_spec (find_vqs_ret dev) 0) as [Hvq | Hvq].
  { exists []. cbn [world_of returns_with]. path_simpl. rewrite app_nil_r.
    split; [reflexivity |]. split; [apply prefix_nil |].
    split; [reflexivity |]. split; [reflexivity |].
    split; [tauto |]. right. right. now repeat split. }
  path_simpl. rewrite do_req_eq. cbv zeta. cbn [sent_request]. path_simpl.
  change (unfenced_request dev VIRTIO_GPU_CMD_GET_DISPLAY_INFO BodyNone
            sizeof_ctrl_hdr sizeof_resp_display_info)
    with (get_display_info_request dev).
  assert (Hpm : ∀ len resp,
    dev_reply dev (w_trace w ++ [get_display_info_request dev]) =
      Completes len resp →
    display_info_reply dev w = resp_pmodes resp).
  { intros len resp H. unfold display_info_reply. now rewrite H. }
  set (pmodes := display_info_reply dev w) in *.
  assert (Hfirst :
    [get_display_info_request dev]
      `prefix_of` bring_up_sequence cfg dev (w_plat w) pmodes)
    by apply prefix_cons, prefix_nil.
  assert (Hsome : [get_display_info_request dev] = [] ↔
                  base (w_plat w) = 0 ∨ find_vqs_ret dev < 0)
    by (split; [discriminate | lia]).
  destruct (dev_reply dev (w_trace w ++ [get_display_info_request dev]))
    as [errno | len resp |] eqn:Hgdi; cbn [bind].
  - destruct (Z.eqb_spec (- Z.pos errno) VIRTIO_GPU_RESP_OK_DISPLAY_INFO)
      as [Heq | _]; [unfold VIRTIO_GPU_RESP_OK_DISPLAY_INFO in Heq; lia |].
    cbn [negb]. path_leaves. rewrite ?alloc_free.
    exists [get_display_info_request dev]. repeat split; tauto.
  - specialize (Hpm len resp eq_refl).
    repeat send_step cfg.
    all: path_leaves; rewrite ?alloc_free.
    all: try rewrite Htr; try rewrite Hp; path_simpl.
    all: rewrite <- ?app_assoc; cbn [app]; eexists; split; [reflexivity |].
    all: split;
      [unfold bring_up_sequence; cbn [app]; repeat apply prefix_cons;
       first [apply prefix_nil | rewrite Hpm; exact Hpre] |].
    all: split; [reflexivity |]. all: split; [reflexivity |].
    all: split; [split; [discriminate | lia] |].
    all: first
      [ exact I
      | right; left; (reflexivity || assumption)
      | left; split; [reflexivity |]; split;
        [rewrite Hend, Hpm; reflexivity
        | split; [| reflexivity];
          rewrite Hpm; intros Hen; now apply build_scanout_mask_none in Hen] ].
  - path_leaves. exists [get_display_info_request dev]. repeat split; tauto.
Qed.

(** X12. Probing right after bind, before the video uclass has placed the
    framebuffer, fails with -EINVAL on every device and in every world:
    nothing is sent, nothing is allocated and the private data is not
    touched. *)
Theorem bind_then_probe_fails cfg dev w :
  ∃ w',
    run cfg dev [Bind; Probe] w = Ret [0; - EINVAL] w' ∧
    w_trace w' = w_trace w ∧ w_priv w' = w_priv w ∧ w_live w' = w_live w.
Proof.
  cbn [run enter]. unfold virtio_gpu_bind. cbn [bind].
  unfold virtio_gpu_probe. cbn [w_plat set_plat base Z.eqb bind].
  eexists. split; [reflexivity |]. now repeat split.
Qed.

(** X13. When the framebuffer is there but [virtio_find_vqs] fails, the
    probe returns the error code of the lookup itself, not -EINVAL; it has
    stored the queue handle and done nothing else. *)
Theorem probe_queue_lookup_failure cfg dev w :
  base (w_plat w) ≠ 0 →
  find_vqs_ret dev < 0 →
  virtio_gpu_probe cfg dev w =
  Ret (find_vqs_ret dev) (set_priv (set_vq (find_vqs_vq dev) (w_priv w)) w).
Proof.
  intros Hbase Hvq. unfold virtio_gpu_probe.
  destruct (Z.eqb_spec (base (w_plat w)) 0); [contradiction |].
  destruct (Z.ltb_spec (find_vqs_ret dev) 0); [reflexivity | lia].
Qed.

Lemma probe_queue_lookup_failure_witness :
  virtio_gpu_probe sample_cfg (no_queue_dev (- 19)) reserved_world =
  Ret (- 19)
    (set_priv (set_vq 0 (w_priv reserved_world)) reserved_world).
Proof.
  apply (probe_queue_lookup_failure sample_cfg (no_queue_dev (- 19))
           reserved_world).
  - vm_compute. discriminate.
  - reflexivity.
Defined.

(** X14. Bring-up is one straight line: whatever the device does and
    wherever the probe stops, hangs or returns, the requests it has handed
    to the queue are an initial part of GET_DISPLAY_INFO,
    RESOURCE_CREATE_2D, RESOURCE_ATTACH_BACKING and the SET_SCANOUT
    requests for the enabled scanouts in ascending order, with the sizes
    the 16-bit geometry fields hold: nothing is sent twice, skipped or
    reordered.  Nothing at all is sent exactly when the framebuffer is
    missing or the queue lookup fails. *)
Theorem probe_follows_sequence cfg dev w :
  ∃ sent,
    w_trace (world_of (virtio_gpu_probe cfg dev w)) = w_trace w ++ sent ∧
    sent `prefix_of`
      bring_up_sequence cfg dev (w_plat w) (display_info_reply dev w) ∧
    (sent = [] ↔ base (w_plat w) = 0 ∨ find_vqs_ret dev < 0).
Proof.
  destruct (probe_sends cfg dev w) as (sent & Htr & Hpre & _ & _ & Hnil & _).
  now exists sent.
Qed.



Lemma bring_up_sequence_unfenced cfg dev plat pmodes :
  Forall (fun rq => hdr_flags (rq_hdr rq) = 0 ∧ hdr_fence_id (rq_hdr rq) = 0)
    (bring_up_sequence cfg dev plat pmodes).
Proof.
  unfold bring_up_sequence. apply Forall_app. split.
  - repeat constructor.
  - apply Forall_forall. intros rq Hin.
    apply list_elem_of_In, in_map_iff in Hin. destruct Hin as (i & <- & _).
    now split.
Qed.

(** X16. Bring-up never asks for a fence: every request it sends carries
    flags 0 and fence id 0, and the fence counter and the in-progress flag
    of the instance are what they were, wherever the probe stops. *)
Theorem probe_uses_no_fence cfg dev w :
  let w' := world_of (virtio_gpu_probe cfg dev w) in
  (∃ sent,
      w_trace w' = w_trace w ++ sent ∧
      Forall (fun rq => hdr_flags (rq_hdr rq) = 0 ∧
                        hdr_fence_id (rq_hdr rq) = 0) sent) ∧
  fence_id (w_priv w') = fence_id (w_priv w) ∧
  in_sync (w_priv w') = in_sync (w_priv w).
Proof.
  intros w'. subst w'.
  destruct (probe_sends cfg dev w)
    as (sent & Htr & (rest & Hpre) & Hfence & Hsync & _).
  split; [| now split].
  exists sent. split; [exact Htr |].
  pose proof (bring_up_sequence_unfenced cfg dev (w_plat w)
                (display_info_reply dev w)) as Hall.
  rewrite Hpre in Hall. now apply Forall_app in Hall.
Qed.

(** X17. The probe returns 0 only after the whole sequence: then at least
    one scanout was enabled, the queue has received exactly the complete
    bring-up sequence, the instance holds resource id 1 and, as its
    geometry, the low 16 bits of each configured size at 32 bits per
    pixel, and every request buffer has been freed. *)
Theorem probe_success_means_all_sent cfg dev w w' :
  virtio_gpu_probe cfg dev w = Ret 0 w' →
  enabled_scanouts (display_info_reply dev w) ≠ [] ∧
  w_trace w' =
    w_trace w ++
    bring_up_sequence cfg dev (w_plat w) (display_info_reply dev w) ∧
  scanout_res_id (w_priv w') = 1 ∧
  w_uc_priv w' =
    {| xsize := u16 (VIRTIO_GPU_SIZE_X cfg);
       ysize := u16 (VIRTIO_GPU_SIZE_Y cfg);
       bpix := VideoFormat.VIDEO_BPP32 |} ∧
  w_live w' = w_live w.
Proof.
  intros Hrun.
  destruct (probe_sends cfg dev w) as (sent & Htr & _ & _ & _ & _ & Hret).
  destruct (probe_paths cfg dev w) as (_ & Hlive & _).
  rewrite Hrun in Htr, Hret, Hlive.
  cbn [returns_with world_of] in *.
  destruct Hlive as (Hlive & Hgeo).
  destruct Hret as [(_ & -> & Hen & Hid) | [Hret | (_ & Hret & _)]];
    [| unfold EINVAL in Hret; lia | lia].
  split; [exact Hen |]. split; [exact Htr |]. split; [exact Hid |].
  split; [now apply Hgeo | exact Hlive].
Qed.

Lemma probe_success_means_all_sent_witness :
  let dev := healthy_dev [0; 1] in
  let m := virtio_gpu_probe sample_cfg dev reserved_world in
  enabled_scanouts (display_info_reply dev reserved_world) ≠ [] ∧
  w_trace (world_of m) =
    w_trace reserved_world ++
    bring_up_sequence sample_cfg dev (w_plat reserved_world)
      (display_info_reply dev reserved_world) ∧
  scanout_res_id (w_priv (world_of m)) = 1 ∧
  w_uc_priv (world_of m) =
    {| xsize := u16 (VIRTIO_GPU_SIZE_X sample_cfg);
       ysize := u16 (VIRTIO_GPU_SIZE_Y sample_cfg);
       bpix := VideoFormat.VIDEO_BPP32 |} ∧
  w_live (world_of m) = w_live reserved_world.
Proof.
  intros dev m.
  apply (probe_success_means_all_sent sample_cfg dev reserved_world
           (world_of m)).
  vm_compute. reflexivity.
Defined.

(** *** More on frame synchronisation *)

(** Everything a flush that starts does, on any device. *)
Lemma video_sync_sends dev w :
  in_sync (w_priv w) = false →
  ∃ sent,
    w_trace (world_of (virtio_gpu_video_sync dev w)) = w_trace w ++ sent ∧
    sent `prefix_of` [transfer_to_host_2d_request dev w;
                      resource_flush_request dev w] ∧
    sent ≠ [] ∧
    fence_id (w_priv (world_of (virtio_gpu_video_sync dev w))) =
      u64 (fence_id (w_priv w) + Z.of_nat (length sent)) ∧
    leaves (virtio_gpu_video_sync dev w) (fun w' =>
      w_uc_priv w' = w_uc_priv w ∧ w_plat w' = w_plat w ∧
      w_live w' = w_live w ∧ vq (w_priv w') = vq (w_priv w) ∧
      scanout_res_id (w_priv w') = scanout_res_id (w_priv w)) ∧
    match virtio_gpu_video_sync dev w with
    | Ret ret w' =>
        in_sync (w_priv w') = false ∧
        ((ret = 0 ∧ sent = [transfer_to_host_2d_request dev w;
                            resource_flush_request dev w]) ∨
         ret = - EINVAL)
    | Hang w' => in_sync (w_priv w') = true
    | OutOfFuel _ => False
    end.
Proof.
  intros Hsync. unfold virtio_gpu_video_sync. rewrite Hsync.
  path_simpl. repeat path_step.
  all: path_leaves.
  all: rewrite <- ?app_assoc; cbn [app]; eexists; split; [reflexivity |].
  all: split; [repeat apply prefix_cons; apply prefix_nil |].
  all: split; [discriminate |].
  all: split;
    [cbn [length]; unfold u64;
     rewrite ?Z.add_mod_idemp_l by lia; f_equal; lia |].
  all: split; [now repeat split |].
  all: first [reflexivity | split; [reflexivity |]; tauto].
Qed.

(** One exchange of a flush, by what the device does with it. *)
Ltac sync_step H :=
  rewrite do_req_eq; cbv zeta; cbn [sent_request]; world_simpl;
  match goal with
  | |- context [dev_reply ?d ?t] =>
      destruct (dev_reply d t) as [?e | ?len ?out |] eqn:H
  end;
  cbn [bind]; world_simpl.

(** A flush hangs exactly when the device never completes the last
    request it was handed. *)
Lemma video_sync_completion dev w :
  in_sync (w_priv w) = false →
  match virtio_gpu_video_sync dev w with
  | Ret _ w' => dev_reply dev (w_trace w') ≠ NeverCompletes
  | Hang w' => dev_reply dev (w_trace w') = NeverCompletes
  | OutOfFuel _ => True
  end.
Proof.
  intros Hsync. unfold virtio_gpu_video_sync. rewrite Hsync.
  sync_step H1; [| | exact H1];
    (destruct (negb _); [world_simpl; rewrite H1; discriminate |]);
    (sync_step H2; [| | exact H2]);
    destruct (negb _); world_simpl; rewrite H2; discriminate.
Qed.

(** X18. A flush that starts sends TRANSFER_TO_HOST_2D and then at most
    RESOURCE_FLUSH, both for the full screen and the recorded resource,
    and takes one fence id per request sent.  It touches nothing else in
    the world.  It stops without returning exactly when the device never
    completes the last request sent, and then the in-progress flag stays
    set; otherwise it returns with the flag clear and the result 0 (both
    requests sent) or -EINVAL. *)
Theorem video_sync_footprint dev w :
  in_sync (w_priv w) = false →
  let m := virtio_gpu_video_sync dev w in
  let w' := world_of m in
  ∃ sent,
    w_trace w' = w_trace w ++ sent ∧
    (sent = [transfer_to_host_2d_request dev w] ∨
     sent = [transfer_to_host_2d_request dev w;
             resource_flush_request dev w]) ∧
    fence_id (w_priv w') =
      u64 (fence_id (w_priv w) + Z.of_nat (length sent)) ∧
    scanout_res_id (w_priv w') = scanout_res_id (w_priv w) ∧
    vq (w_priv w') = vq (w_priv w) ∧
    w_uc_priv w' = w_uc_priv w ∧ w_plat w' = w_plat w ∧
    w_live w' = w_live w ∧
    match m with
    | Ret ret _ =>
        dev_reply dev (w_trace w') ≠ NeverCompletes ∧
        in_sync (w_priv w') = false ∧
        (ret = 0 ∧ sent = [transfer_to_host_2d_request dev w;
                           resource_flush_request dev w] ∨
         ret = - EINVAL)
    | Hang _ =>
        dev_reply dev (w_trace w') = NeverCompletes ∧
        in_sync (w_priv w') = true
    | OutOfFuel _ => False
    end.
Proof.
  intros Hsync m w'. subst m w'.
  destruct (video_sync_sends dev w Hsync)
    as (sent & Htr & Hpre & Hne & Hfence & Hframe & Hret).
  pose proof (video_sync_completion dev w Hsync) as Hdone.
  unfold leaves in Hframe.
  destruct Hframe as (Hu & Hpl & Hlv & Hvq & Hid).
  exists sent. split; [exact Htr |].
  split.
  { destruct Hpre as (rest & Hpre).
    destruct sent as [| a [| b [| c sent]]]; [contradiction | | |];
      cbn [app] in Hpre.
    - left. congruence.
    - right. congruence.
    - discriminate. }
  do 6 (split; [assumption |]).
  destruct (virtio_gpu_video_sync dev w) as [ret w1 | w1 | w1];
    cbn [world_of] in *; [| now split | exact Hret].
  destruct Hret as (Hclr & Hret). now repeat split.
Qed.

Lemma video_sync_footprint_witness :
  let dev := sample_dev [1] (ctrl_code VIRTIO_GPU_CMD_TRANSFER_TO_HOST_2D)
               VIRTIO_GPU_RESP_ERR_UNSPEC in
  let w := reserved_world in
  let m := virtio_gpu_video_sync dev w in
  let w' := world_of m in
  ∃ sent,
    w_trace w' = w_trace w ++ sent ∧
    (sent = [transfer_to_host_2d_request dev w] ∨
     sent = [transfer_to_host_2d_request dev w;
             resource_flush_request dev w]) ∧
    fence_id (w_priv w') =
      u64 (fence_id (w_priv w) + Z.of_nat (length sent)) ∧
    scanout_res_id (w_priv w') = scanout_res_id (w_priv w) ∧
    vq (w_priv w') = vq (w_priv w) ∧
    w_uc_priv w' = w_uc_priv w ∧ w_plat w' = w_plat w ∧
    w_live w' = w_live w ∧
    match m with
    | Ret ret _ =>
        dev_reply dev (w_trace w') ≠ NeverCompletes ∧
        in_sync (w_priv w') = false ∧
        (ret = 0 ∧ sent = [transfer_to_host_2d_request dev w;
                           resource_flush_request dev w] ∨
         ret = - EINVAL)
    | Hang _ =>
        dev_reply dev (w_trace w') = NeverCompletes ∧
        in_sync (w_priv w') = true
    | OutOfFuel _ => False
    end.
Proof.
  intros dev w.
  apply (video_sync_footprint dev w).
  reflexivity.
Defined.

(** X19. When the device never completes a request of a flush, the
    instance is left with the in-progress flag set, so every later flush
    on it returns 0 at once without sending anything. *)
Theorem video_sync_after_hang dev w w' :
  virtio_gpu_video_sync dev w = Hang w' →
  in_sync (w_priv w') = true ∧
  virtio_gpu_video_sync dev w' = Ret 0 w'.
Proof.
  intros Hrun.
  assert (Hsync : in_sync (w_priv w) = false).
  { destruct (in_sync (w_priv w)) eqn:H; [| reflexivity].
    unfold virtio_gpu_video_sync in Hrun. rewrite H in Hrun. discriminate. }
  destruct (video_sync_sends dev w Hsync) as (sent & _ & _ & _ & _ & _ & Hret).
  rewrite Hrun in Hret.
  split; [exact Hret |].
  unfold virtio_gpu_video_sync. now rewrite Hret.
Qed.

Lemma video_sync_after_hang_witness :
  let w' := world_of (virtio_gpu_video_sync stalled_dev reserved_world) in
  in_sync (w_priv w') = true ∧
  virtio_gpu_video_sync stalled_dev w' = Ret 0 w'.
Proof.
  intros w'.
  apply (video_sync_after_hang stalled_dev reserved_world w').
  vm_compute. reflexivity.
Defined.

(** X20. A flush that returns, with success or with an error, leaves the
    instance ready for the next one: the next flush is not taken for a
    re-entrant call but sends TRANSFER_TO_HOST_2D again, for the same
    rectangle and resource, with the fence id the counter has reached. *)
Theorem video_sync_can_be_repeated dev w ret w' :
  in_sync (w_priv w) = false →
  virtio_gpu_video_sync dev w = Ret ret w' →
  ∃ rest,
    w_trace (world_of (virtio_gpu_video_sync dev w')) =
      w_trace w' ++ transfer_to_host_2d_request dev w' :: rest ∧
    rq_body (transfer_to_host_2d_request dev w') =
      rq_body (transfer_to_host_2d_request dev w) ∧
    fence_of dev (transfer_to_host_2d_request dev w') =
      u64 (fence_id (w_priv w')).
Proof.
  intros Hsync Hrun.
  destruct (video_sync_sends dev w Hsync)
    as (sent0 & _ & _ & _ & _ & Hframe & Hret).
  unfold leaves in Hframe. rewrite Hrun in Hframe, Hret.
  cbn [world_of] in *.
  destruct Hframe as (Hu & _ & _ & _ & Hid). destruct Hret as (Hclr & _).
  destruct (video_sync_sends dev w' Hclr)
    as (sent & Htr & (rest & Hpre) & Hne & _).
  destruct sent as [| rq sent]; [contradiction |].
  cbn [app] in Hpre. injection Hpre as <- _.
  exists sent. split; [exact Htr |]. split.
  - unfold transfer_to_host_2d_request, fenced_request. cbn [rq_body].
    now rewrite Hu, Hid.
  - unfold fence_of, transfer_to_host_2d_request, fenced_request.
    cbn [rq_hdr hdr_fence_id]. apply virtio64_roundtrip.
Qed.

Lemma video_sync_can_be_repeated_witness :
  let dev := sample_dev [1] (ctrl_code VIRTIO_GPU_CMD_RESOURCE_FLUSH)
               VIRTIO_GPU_RESP_ERR_UNSPEC in
  let w' := world_of (virtio_gpu_video_sync dev reserved_world) in
  ∃ rest,
    w_trace (world_of (virtio_gpu_video_sync dev w')) =
      w_trace w' ++ transfer_to_host_2d_request dev w' :: rest ∧
    rq_body (transfer_to_host_2d_request dev w') =
      rq_body (transfer_to_host_2d_request dev reserved_world) ∧
    fence_of dev (transfer_to_host_2d_request dev w') =
      u64 (fence_id (w_priv w')).
Proof.
  intros dev w'.
  apply (video_sync_can_be_repeated dev reserved_world (- EINVAL) w').
  - reflexivity.
  - vm_compute. reflexivity.
Defined.

(** *** Bring-up followed by a flush *)

Lemma healthy_dev_accepts enabled reqs :
  Forall (fun rq => is_cmd (healthy_dev enabled)
                      VIRTIO_GPU_CMD_GET_DISPLAY_INFO rq = false) reqs →
  ∀ hist, accepts (healthy_dev enabled) hist reqs.
Proof. apply answers_accepts, healthy_dev_answers. Qed.

(** A flush on a device that accepts its two requests. *)
Lemma video_sync_accepted dev w :
  in_sync (w_priv w) = false →
  accepts dev (w_trace w)
    [transfer_to_host_2d_request dev w; resource_flush_request dev w] →
  ∃ w', virtio_gpu_video_sync dev w = Ret 0 w'.
Proof.
  intros Hsync (Htransfer & Hflush & _).
  unfold virtio_gpu_video_sync. rewrite Hsync.
  match goal with
  | |- context [virtio_gpu_do_req ?d ?t ?b ?i ?o ?s true ?w0] =>
      destruct (do_req_accepted d t b i o s true w0
                  (transfer_to_host_2d_request dev w) eq_refl Htransfer)
        as (out1 & ->)
  end.
  cbn [bind]. rewrite Z.eqb_refl. cbn [negb].
  match goal with
  | |- context [virtio_gpu_do_req ?d ?t ?b ?i ?o ?s true ?w0] =>
      destruct (do_req_accepted d t b i o s true w0
                  (resource_flush_request dev w) eq_refl Hflush)
        as (out2 & ->)
  end.
  cbn [bind]. rewrite Z.eqb_refl. cbn [negb]. eauto.
Qed.

(** X21. Bind, framebuffer placement, probe and a first flush on a device
    that reports an enabled scanout and completes the requests of
    bring-up and of the flush as expected: all four return 0, and the
    flush transfers and flushes the resource the probe created (id 1)
    over the screen the probe recorded (the configured size as the 16-bit
    geometry fields hold it), right after the bring-up sequence, with
    the first two fence ids of the instance. *)
Theorem bring_up_then_flush cfg dev fb w len out :
  let plat :=
    {| base := fb;
       size := u32 (VIRTIO_GPU_SIZE_X cfg * VIRTIO_GPU_SIZE_X cfg *
                    VideoFormat.VNBYTES VideoFormat.VIDEO_BPP32) |} in
  let rect :=
    {| r_x := 0; r_y := 0;
       r_width := cpu_to_virtio32 dev (u16 (VIRTIO_GPU_SIZE_X cfg));
       r_height := cpu_to_virtio32 dev (u16 (VIRTIO_GPU_SIZE_Y cfg)) |} in
  let flush :=
    [ fenced_request dev VIRTIO_GPU_CMD_TRANSFER_TO_HOST_2D
        (fence_id (w_priv w))
        (BodyTransferToHost2d rect 0 (cpu_to_virtio32 dev 1) 0) 56 24;
      fenced_request dev VIRTIO_GPU_CMD_RESOURCE_FLUSH
        (u64 (fence_id (w_priv w) + 1))
        (BodyResourceFlush rect (cpu_to_virtio32 dev 1) 0) 48 24 ] in
  in_sync (w_priv w) = false →
  fb ≠ 0 →
  0 ≤ find_vqs_ret dev →
  dev_reply dev (w_trace w ++ [get_display_info_request dev]) =
    Completes len out →
  to_int (virtio32_to_cpu dev (hdr_type (resp_hdr out))) =
    VIRTIO_GPU_RESP_OK_DISPLAY_INFO →
  enabled_scanouts (resp_pmodes out) ≠ [] →
  accepts dev (w_trace w ++ [get_display_info_request dev])
    (resource_create_2d_request cfg dev ::
     resource_attach_backing_request dev plat ::
     map (set_scanout_request cfg dev) (enabled_scanouts (resp_pmodes out)) ++
     flush) →
  ∃ w',
    run cfg dev [Bind; Reserve fb; Probe; Sync] w = Ret [0; 0; 0; 0] w' ∧
    w_trace w' =
      w_trace w ++
      bring_up_sequence cfg dev plat (resp_pmodes out) ++ flush ∧
    in_sync (w_priv w') = false.
Proof.
  intros plat rect flush Hsync Hfb Hvq Hreply Htype Hsome Hacc.
  change (accepts dev (w_trace w ++ [get_display_info_request dev])
            ([resource_create_2d_request cfg dev;
              resource_attach_backing_request dev plat] ++
             map (set_scanout_request cfg dev)
               (enabled_scanouts (resp_pmodes out)) ++ flush)) in Hacc.
  rewrite app_assoc in Hacc. apply accepts_app in Hacc.
  destruct Hacc as (Hacc & Hflush).
  cbn [run enter]. unfold virtio_gpu_bind. cbn [bind].
  set (w0 := set_plat _ (set_plat _ w)).
  destruct (probe_accepted cfg dev w0 len out)
    as (w1 & Hprobe & Htr & Hid & Hgeo & Hfence & Hflag); try assumption.
  assert (Hclear : in_sync (w_priv w1) = false)
    by (rewrite Hflag; exact Hsync).
  assert (Hreqs : [transfer_to_host_2d_request dev w1;
                   resource_flush_request dev w1] = flush).
  { unfold transfer_to_host_2d_request, resource_flush_request, full_screen.
    rewrite Hgeo, Hid, Hfence. reflexivity. }
  assert (Hseq : w_trace w1 =
                 w_trace w ++ bring_up_sequence cfg dev plat (resp_pmodes out)).
  { rewrite Htr. reflexivity. }
  destruct (video_sync_accepted dev w1 Hclear) as (w2 & Hsent).
  { rewrite Hreqs, Hseq. unfold bring_up_sequence.
    rewrite <- app_assoc in Hflush. exact Hflush. }
  destruct (video_sync_sends dev w1 Hclear)
    as (sent & Htr2 & _ & _ & _ & _ & Hret).
  rewrite Hsent in Htr2, Hret. cbn [world_of] in *.
  destruct Hret as (Hclr & [(_ & ->) | Hret]);
    [| unfold EINVAL in Hret; lia].
  rewrite Hprobe. cbn [bind]. rewrite Hsent. cbn [bind].
  exists w2. split; [reflexivity |]. split; [| exact Hclr].
  now rewrite Htr2, Hseq, Hreqs, <- app_assoc.
Qed.

Lemma bring_up_then_flush_witness :
  let dev := healthy_dev [1] in
  let plat := {| base := 0x80000000; size := 1280 * 1280 * 4 |} in
  let rect :=
    {| r_x := 0; r_y := 0;
       r_width := cpu_to_virtio32 dev 1280;
       r_height := cpu_to_virtio32 dev 1024 |} in
  let flush :=
    [ fenced_request dev VIRTIO_GPU_CMD_TRANSFER_TO_HOST_2D 0
        (BodyTransferToHost2d rect 0 (cpu_to_virtio32 dev 1) 0) 56 24;
      fenced_request dev VIRTIO_GPU_CMD_RESOURCE_FLUSH 1
        (BodyResourceFlush rect (cpu_to_virtio32 dev 1) 0) 48 24 ] in
  ∃ w',
    run sample_cfg dev [Bind; Reserve 0x80000000; Probe; Sync] initial_world =
      Ret [0; 0; 0; 0] w' ∧
    w_trace w' =
      w_trace initial_world ++
      bring_up_sequence sample_cfg dev plat (resp_pmodes (display_info [1])) ++
      flush ∧
    in_sync (w_priv w') = false.
Proof.
  intros dev plat rect flush.
  apply (bring_up_then_flush sample_cfg dev 0x80000000 initial_world
           sizeof_resp_display_info (display_info [1])).
  - reflexivity.
  - discriminate.
  - vm_compute. discriminate.
  - reflexivity.
  - reflexivity.
  - vm_compute. discriminate.
  - apply healthy_dev_accepts. repeat (constructor; [reflexivity |]).
    constructor.
Defined.

End VirtioGpuSpec.
